(** * ndt5/protocol: the Messager abstraction and SendMetrics

    A shallow embedding of [ndt5/protocol/messager.go].

    - Go [string] is [string]; [[]byte] is [list byte]; a nil-able slice or
      pointer is an [option].
    - Go [int], [int64] and the [Encoding] enumeration are [Z].
    - Values reached through package [reflect] are the finite trees [Value]:
      a struct holds its fields by value, so a record is always a finite
      tree; pointers occur at the top of the argument of [SendMetrics].
    - The framing codecs, the connection, the logger and [errors.New] are
      collaborators outside this file of the repository: they are the fields
      of the class [Collaborators], and every definition is parametric in
      them.  [MockTransport] is one concrete instance, a recording transport
      with scripted failures, used to run the code on concrete inputs.
    - Effects are threaded explicitly: a computation is a function from the
      state of the world to an outcome and a new state; an outcome is a
      returned value or a Go panic. *)

From Stdlib Require Import ZArith List String Ascii Strings.Byte Bool Lia.
From Stdlib Require Import Decimal DecimalString DecimalPos DecimalZ.
Import ListNotations.

Set Warnings "-register-all".

Local Open Scope Z_scope.
Local Open Scope list_scope.

Infix "^^" := String.append (right associativity, at level 60).

(** ** Characters that cannot be written inside a string literal *)

Definition dquote : string := String (ascii_of_nat 34) EmptyString.
Definition newline : string := String (ascii_of_nat 10) EmptyString.
Definition backslash : string := String (ascii_of_nat 92) EmptyString.

(** ** Package strconv and fmt: decimal rendering *)

(** [strconv.FormatInt(i, 10)], also what [%d] and [%v] print for a value of
    an integer type without formatting methods. *)
Definition strconv_FormatInt (i : Z) : string :=
  NilZero.string_of_int (Z.to_int i).

(** ** Package encoding/json: string encoding *)

Definition hexdigit (n : nat) : ascii :=
  match n with
  | 0 => "0" | 1 => "1" | 2 => "2" | 3 => "3" | 4 => "4" | 5 => "5"
  | 6 => "6" | 7 => "7" | 8 => "8" | 9 => "9" | 10 => "a" | 11 => "b"
  | 12 => "c" | 13 => "d" | 14 => "e" | _ => "f"
  end%nat%char.

(** One byte of a Go string as [json.Marshal] writes it inside a JSON
    string (HTML escaping on, which is the default).  Bytes from 0x80 on
    belong to multi-byte UTF-8 sequences, which are copied. *)
Definition json_escape_char (c : ascii) : string :=
  let n := nat_of_ascii c in
  if (n =? 34)%nat then backslash ^^ dquote
  else if (n =? 92)%nat then backslash ^^ backslash
  else if (n =? 10)%nat then backslash ^^ "n"
  else if (n =? 13)%nat then backslash ^^ "r"
  else if (n =? 9)%nat then backslash ^^ "t"
  else if ((n <? 32) || (n =? 60) || (n =? 62) || (n =? 38))%nat
  then backslash ^^ "u00"
       ^^ String (hexdigit (n / 16)) (String (hexdigit (n mod 16)) EmptyString)
  else String c EmptyString.

Fixpoint json_escape (s : string) : string :=
  match s with
  | EmptyString => EmptyString
  | String c rest => json_escape_char c ^^ json_escape rest
  end.

Definition json_string (s : string) : string :=
  dquote ^^ json_escape s ^^ dquote.

(** The characters of decimal text: the digits and the minus sign. *)
Definition plain_char (c : ascii) : bool :=
  let n := nat_of_ascii c in
  ((48 <=? n) && (n <=? 57) || (n =? 45))%nat.

Fixpoint plain (s : string) : bool :=
  match s with
  | EmptyString => true
  | String c rest => plain_char c && plain rest
  end.

(** ** Package reflect *)

Module reflect.

Inductive Kind : Set :=
| Invalid | Bool
| Int | Int8 | Int16 | Int32 | Int64
| Uint | Uint8 | Uint16 | Uint32 | Uint64 | Uintptr
| Float32 | Float64 | Complex64 | Complex128
| Array | Chan | Func | Interface | Map | Ptr | Slice
| String | Struct | UnsafePointer.

(** [Kind.String()]. *)
Definition Kind_String (k : Kind) : string :=
  match k with
  | Invalid => "invalid" | Bool => "bool"
  | Int => "int" | Int8 => "int8" | Int16 => "int16" | Int32 => "int32"
  | Int64 => "int64"
  | Uint => "uint" | Uint8 => "uint8" | Uint16 => "uint16"
  | Uint32 => "uint32" | Uint64 => "uint64" | Uintptr => "uintptr"
  | Float32 => "float32" | Float64 => "float64"
  | Complex64 => "complex64" | Complex128 => "complex128"
  | Array => "array" | Chan => "chan" | Func => "func"
  | Interface => "interface" | Map => "map" | Ptr => "ptr"
  | Slice => "slice" | String => "string" | Struct => "struct"
  | UnsafePointer => "unsafe.Pointer"
  end.

(** [reflect.StructField], the two parts the walk depends on.  [PkgPath] is
    empty exactly for exported fields. *)
Record StructField : Set := { Name : string; PkgPath : string }.

Definition IsExported (f : StructField) : bool :=
  match PkgPath f with EmptyString => true | _ => false end.

End reflect.

(** The integer kinds of Go, and the kinds whose values the walk never
    looks into. *)
Inductive IntegerKind : Set :=
| KInt | KInt8 | KInt16 | KInt32 | KInt64
| KUint | KUint8 | KUint16 | KUint32 | KUint64 | KUintptr.

Inductive OpaqueKind : Set :=
| KBool | KFloat32 | KFloat64 | KComplex64 | KComplex128
| KArray | KChan | KFunc | KInterface | KMap | KSlice | KUnsafePointer.

(** A Go value as [reflect] presents it.
    - [VInteger k n fmt]: a value of an integer type of kind [k]; [fmt] is
      what package fmt prints for it when its type has a [Format], [Error]
      or [String] method, and [None] for a type without one.
    - [VString s]: a value of a string type.
    - [VStruct stringer fields]: a struct value; [stringer] is the result
      of its [String()] method when the struct type (the value, not a
      pointer to it) implements [fmt.Stringer]; [fields] are the fields in
      declared order, each with its value.
    - [VPtr elem]: a pointer, nil or to [elem].
    - [VOpaque k]: a value of any other kind. *)
Inductive Value : Type :=
| VInteger (k : IntegerKind) (n : Z) (fmt : option string)
| VString (s : string)
| VStruct (stringer : option string) (fields : list (reflect.StructField * Value))
| VPtr (elem : option Value)
| VOpaque (k : OpaqueKind).

Definition IntegerKind_Kind (k : IntegerKind) : reflect.Kind :=
  match k with
  | KInt => reflect.Int | KInt8 => reflect.Int8 | KInt16 => reflect.Int16
  | KInt32 => reflect.Int32 | KInt64 => reflect.Int64
  | KUint => reflect.Uint | KUint8 => reflect.Uint8
  | KUint16 => reflect.Uint16 | KUint32 => reflect.Uint32
  | KUint64 => reflect.Uint64 | KUintptr => reflect.Uintptr
  end.

Definition OpaqueKind_Kind (k : OpaqueKind) : reflect.Kind :=
  match k with
  | KBool => reflect.Bool
  | KFloat32 => reflect.Float32 | KFloat64 => reflect.Float64
  | KComplex64 => reflect.Complex64 | KComplex128 => reflect.Complex128
  | KArray => reflect.Array | KChan => reflect.Chan | KFunc => reflect.Func
  | KInterface => reflect.Interface | KMap => reflect.Map
  | KSlice => reflect.Slice | KUnsafePointer => reflect.UnsafePointer
  end.

(** [v.Type().Kind()], which for the [i]-th field is also
    [t.Field(i).Type.Kind()]. *)
Definition Kind_of (v : Value) : reflect.Kind :=
  match v with
  | VInteger k _ _ => IntegerKind_Kind k
  | VString _ => reflect.String
  | VStruct _ _ => reflect.Struct
  | VPtr _ => reflect.Ptr
  | VOpaque k => OpaqueKind_Kind k
  end.

(** What [%v] prints for the operand [v.Field(i).Interface()] of an integer
    field. *)
Definition fmt_v (v : Value) : string :=
  match v with
  | VInteger _ n None => strconv_FormatInt n
  | VInteger _ _ (Some s) => s
  | VString s => s
  | _ => EmptyString
  end.

(** [reflect.Value.String()]: the underlying string of a value of kind
    String, and a placeholder naming the type for any other kind. *)
Definition Value_String (v : Value) : string :=
  match v with
  | VString s => s
  | _ => "<" ^^ reflect.Kind_String (Kind_of v) ^^ " Value>"
  end.

(** The type assertion [data.(fmt.Stringer)] followed by [s.String()]. *)
Definition Stringer_String (v : Value) : option string :=
  match v with
  | VStruct stringer _ => stringer
  | _ => None
  end.

(** The address-of operator. *)
Definition addr (v : Value) : Value := VPtr (Some v).

Fixpoint addr_chain (n : nat) (v : Value) : Value :=
  match n with
  | O => v
  | S n' => addr (addr_chain n' v)
  end.

(** ** Collaborators

    Everything [messager.go] calls that lives outside it: the message types
    and the two framing codecs of the package's other files, the transport,
    and the pieces of the Go library with an effect on the world. *)

(** Modelled from the spec: the message read by the textual codec, a
    "message-with-string-field"; the declaration of [JSONMessage] is in
    another file of the package. *)
Record JSONMessage : Set := { Msg : string }.

(** The result of a call: a returned value, or a panic. *)
Inductive result (A : Type) : Type :=
| Ok (a : A)
| Panic.
Arguments Ok {A} a.
Arguments Panic {A}.

Class Collaborators : Type := {
  Connection : Type;
  MessageType : Type;
  TestMsg : MessageType;
  error : Type;
  errors_New : string -> error;
  World : Type;
  SendJSONMessage :
    MessageType -> string -> Connection -> World -> result (option error) * World;
  WriteTLVMessage :
    Connection -> MessageType -> string -> World -> result (option error) * World;
  ReceiveJSONMessage :
    Connection -> MessageType -> World ->
    result (option JSONMessage * option error) * World;
  ReadTLVMessage :
    Connection -> MessageType -> World ->
    result (option (list byte) * Z * option error) * World;
  log_Println : string -> World -> World;
  log_Printf : string -> World -> World
}.

Section Protocol.
Context {env : Collaborators}.

(** A computation of the package. *)
Definition M (A : Type) : Type := World -> result A * World.

Definition ret {A : Type} (a : A) : M A := fun w => (Ok a, w).

Definition bind {A B : Type} (c : M A) (k : A -> M B) : M B :=
  fun w =>
    match c w with
    | (Ok a, w') => k a w'
    | (Panic, w') => (Panic, w')
    end.

Definition panic {A : Type} : M A := fun w => (Panic, w).

Notation "x <- c ;; k" := (bind c (fun x => k))
  (at level 100, c at next level, right associativity).
Notation "c ;;; k" := (bind c (fun _ => k))
  (at level 100, right associativity).

(** The logger writes a line and returns nothing. *)
Definition Println (line : string) : M unit :=
  fun w => (Ok tt, log_Println line w).
Definition Printf (text : string) : M unit :=
  fun w => (Ok tt, log_Printf text w).

(** The conversions [[]byte(s)] and [string(b)]. *)
Definition bytes (s : string) : list byte := list_byte_of_string s.
Definition string_of_bytes (b : list byte) : string := string_of_list_byte b.

(** ** Encoding *)

Definition Encoding : Set := Z.

Definition Unknown : Encoding := 0.
Definition JSON : Encoding := 1.
Definition TLV : Encoding := 2.

Definition Encoding_String (e : Encoding) : string :=
  if e =? Unknown then "Unknown"
  else if e =? JSON then "JSON"
  else if e =? TLV then "TLV"
  else "Bad Encoding value: " ^^ strconv_FormatInt e.

(** ** The Messager interface *)

Record Messager : Type := {
  SendMessage : MessageType -> list byte -> M (option error);
  SendS2CResults : Z -> Z -> Z -> M (option error);
  ReceiveMessage : MessageType -> M (option (list byte) * option error);
  Messager_Encoding : M Encoding
}.

(** ** jsonMessager *)

Record jsonMessager : Type := { jm_conn : Connection }.

Record s2cResult : Set := {
  ThroughputValue : string;
  UnsentDataAmount : string;
  TotalSentByte : string
}.

(** [json.Marshal] of a pointer to [s2cResult]: the exported fields in
    declared order under their Go names, each value a JSON string.
    Marshalling a struct of strings has no error case. *)
Definition json_Marshal_s2cResult (r : s2cResult) : string :=
  "{" ^^ json_string "ThroughputValue" ^^ ":" ^^ json_string (ThroughputValue r)
  ^^ "," ^^ json_string "UnsentDataAmount" ^^ ":" ^^ json_string (UnsentDataAmount r)
  ^^ "," ^^ json_string "TotalSentByte" ^^ ":" ^^ json_string (TotalSentByte r)
  ^^ "}".

Definition s2cResult_String (r : s2cResult) : string :=
  let b := json_Marshal_s2cResult r in
  b.

Definition jsonMessager_SendMessage (jm : jsonMessager)
  (kind : MessageType) (contents : list byte) : M (option error) :=
  SendJSONMessage kind (string_of_bytes contents) (jm_conn jm).

Definition jsonMessager_SendS2CResults (jm : jsonMessager)
  (throughputKbps unsentBytes totalSentBytes : Z) : M (option error) :=
  let r := {| ThroughputValue := strconv_FormatInt throughputKbps;
              UnsentDataAmount := strconv_FormatInt unsentBytes;
              TotalSentByte := strconv_FormatInt totalSentBytes |} in
  WriteTLVMessage (jm_conn jm) TestMsg (s2cResult_String r).

Definition jsonMessager_ReceiveMessage (jm : jsonMessager)
  (kind : MessageType) : M (option (list byte) * option error) :=
  r <- ReceiveJSONMessage (jm_conn jm) kind ;;
  let '(msg, err) := r in
  match msg with
  | None =>
      match err with
      | None => ret (None, Some (errors_New "empty message received without error"))
      | Some _ => ret (None, err)
      end
  | Some msg => ret (Some (bytes (Msg msg)), err)
  end.

Definition jsonMessager_Encoding (jm : jsonMessager) : M Encoding :=
  ret JSON.

(** ** tlvMessager *)

Record tlvMessager : Type := { tm_conn : Connection }.

Definition tlvMessager_SendMessage (tm : tlvMessager)
  (kind : MessageType) (contents : list byte) : M (option error) :=
  WriteTLVMessage (tm_conn tm) kind (string_of_bytes contents).

Definition tlvMessager_SendS2CResults (tm : tlvMessager)
  (throughputKbps unsentBytes totalSentBytes : Z) : M (option error) :=
  let msg := strconv_FormatInt throughputKbps ^^ " "
             ^^ strconv_FormatInt unsentBytes ^^ " "
             ^^ strconv_FormatInt totalSentBytes in
  WriteTLVMessage (tm_conn tm) TestMsg msg.

Definition tlvMessager_ReceiveMessage (tm : tlvMessager)
  (kind : MessageType) : M (option (list byte) * option error) :=
  r <- ReadTLVMessage (tm_conn tm) kind ;;
  let '(b, _, err) := r in
  ret (b, err).

Definition tlvMessager_Encoding (tm : tlvMessager) : M Encoding :=
  ret TLV.

(** The two struct types as values of the interface. *)
Definition jsonMessager_Messager (jm : jsonMessager) : Messager :=
  {| SendMessage := jsonMessager_SendMessage jm;
     SendS2CResults := jsonMessager_SendS2CResults jm;
     ReceiveMessage := jsonMessager_ReceiveMessage jm;
     Messager_Encoding := jsonMessager_Encoding jm |}.

Definition tlvMessager_Messager (tm : tlvMessager) : Messager :=
  {| SendMessage := tlvMessager_SendMessage tm;
     SendS2CResults := tlvMessager_SendS2CResults tm;
     ReceiveMessage := tlvMessager_ReceiveMessage tm;
     Messager_Encoding := tlvMessager_Encoding tm |}.

(** [Encoding.Messager]: [None] is the nil interface. *)
Definition Encoding_Messager (e : Encoding) (conn : Connection)
  : M (option Messager) :=
  if e =? Unknown then
    Println "Error: Messager() called for Unknown type" ;;;
    ret None
  else if e =? JSON then
    ret (Some (jsonMessager_Messager {| jm_conn := conn |}))
  else if e =? TLV then
    ret (Some (tlvMessager_Messager {| tm_conn := conn |}))
  else
    Printf ("Bad Encoding value: " ^^ strconv_FormatInt e ^^ newline) ;;;
    ret None.

(** ** SendMetrics *)

(** [fmt.Sprintf] with the format of a metric line: two strings, a colon
    and a blank, the rendered value, a newline. *)
Definition Sprintf_metric (prefix name rendered : string) : string :=
  prefix ^^ name ^^ ": " ^^ rendered ^^ newline.

(** [reflect.Value.Interface()] on the value of field [f]: it panics for a
    field that is not exported. *)
Definition Field_Interface (f : reflect.StructField) (fv : Value) : M Value :=
  if reflect.IsExported f then ret fv else panic.

(** The walk.  The pointer loop strips one pointer per iteration; [Elem] of
    a nil pointer is the zero [reflect.Value], whose [Type] panics, and
    [NumField] panics on a value that is not a struct.  The body of the
    field loop reads [Interface()] where the source does. *)
Fixpoint SendMetrics (metrics : Value) (m : Messager) (prefix : string)
  {struct metrics} : M (option error) :=
  match metrics with
  | VPtr (Some elem) => SendMetrics elem m prefix
  | VPtr None => panic
  | VStruct _ fields =>
      (fix loop (fs : list (reflect.StructField * Value)) : M (option error) :=
         match fs with
         | [] => ret None
         | (f, fv) :: rest =>
             let name := reflect.Name f in
             match Kind_of fv with
             | reflect.Int | reflect.Int8 | reflect.Int16 | reflect.Int32
             | reflect.Int64 | reflect.Uint8 | reflect.Uint16
             | reflect.Uint32 | reflect.Uint64 =>
                 data <- Field_Interface f fv ;;
                 let msg := Sprintf_metric prefix name (fmt_v data) in
                 err <- SendMessage m TestMsg (bytes msg) ;;
                 match err with
                 | Some e => ret (Some e)
                 | None => loop rest
                 end
             | reflect.String =>
                 let msg := Sprintf_metric prefix name (Value_String fv) in
                 err <- SendMessage m TestMsg (bytes msg) ;;
                 match err with
                 | Some e => ret (Some e)
                 | None => loop rest
                 end
             | reflect.Struct =>
                 if reflect.IsExported f then
                   err <- match Stringer_String fv with
                          | Some s =>
                              let msg := Sprintf_metric prefix name s in
                              SendMessage m TestMsg (bytes msg)
                          | None =>
                              SendMetrics fv m (prefix ^^ name ^^ ".")
                          end ;;
                   match err with
                   | Some e => ret (Some e)
                   | None => loop rest
                   end
                 else panic
             | k =>
                 Println ("Unhandled case in SendMetrics: "
                          ^^ reflect.Kind_String k) ;;;
                 loop rest
             end
         end) fields
  | _ => panic
  end.

(** ** The plan of a walk

    What [SendMetrics] does to the world, as data: the messages it hands to
    [SendMessage], the diagnostics it logs and the point where it panics,
    in the order of the record's declared fields.  [perform] carries a plan
    out, stopping at the first send that returns an error. *)

Inductive Action : Set :=
| Send (line : string)
| Log (line : string)
| Crash.

(** The kinds with a case of their own in the switch of [SendMetrics]. *)
Definition recognized (k : reflect.Kind) : bool :=
  match k with
  | reflect.Int | reflect.Int8 | reflect.Int16 | reflect.Int32
  | reflect.Int64 | reflect.Uint8 | reflect.Uint16
  | reflect.Uint32 | reflect.Uint64 => true
  | reflect.String => true
  | reflect.Struct => true
  | _ => false
  end.

Definition unhandled (k : reflect.Kind) : string :=
  "Unhandled case in SendMetrics: " ^^ reflect.Kind_String k.

(** The actions for one field; [nested] is the plan of the field's own
    fields under the extended prefix. *)
Definition fieldPlan (prefix : string) (f : reflect.StructField) (fv : Value)
  (nested : list Action) : list Action :=
  let name := reflect.Name f in
  match Kind_of fv with
  | reflect.Int | reflect.Int8 | reflect.Int16 | reflect.Int32
  | reflect.Int64 | reflect.Uint8 | reflect.Uint16
  | reflect.Uint32 | reflect.Uint64 =>
      if reflect.IsExported f
      then [Send (Sprintf_metric prefix name (fmt_v fv))]
      else [Crash]
  | reflect.String => [Send (Sprintf_metric prefix name (Value_String fv))]
  | reflect.Struct =>
      if reflect.IsExported f then
        match Stringer_String fv with
        | Some s => [Send (Sprintf_metric prefix name s)]
        | None => nested
        end
      else [Crash]
  | k => [Log (unhandled k)]
  end.

Fixpoint plan (prefix : string) (metrics : Value) {struct metrics}
  : list Action :=
  match metrics with
  | VPtr (Some elem) => plan prefix elem
  | VPtr None => [Crash]
  | VStruct _ fields =>
      (fix walk (fs : list (reflect.StructField * Value)) : list Action :=
         match fs with
         | [] => []
         | (f, fv) :: rest =>
             fieldPlan prefix f fv (plan (prefix ^^ reflect.Name f ^^ ".") fv)
             ++ walk rest
         end) fields
  | _ => [Crash]
  end.

Fixpoint perform (m : Messager) (acts : list Action) : M (option error) :=
  match acts with
  | [] => ret None
  | Send line :: rest =>
      err <- SendMessage m TestMsg (bytes line) ;;
      match err with
      | Some e => ret (Some e)
      | None => perform m rest
      end
  | Log line :: rest => Println line ;;; perform m rest
  | Crash :: _ => panic
  end.

(** [if err != nil { return err }] between two computations. *)
Definition andThen (c k : M (option error)) : M (option error) :=
  err <- c ;;
  match err with
  | Some e => ret (Some e)
  | None => k
  end.

(** The lines a plan sends, in order. *)
Fixpoint sends (acts : list Action) : list string :=
  match acts with
  | [] => []
  | Send line :: rest => line :: sends rest
  | _ :: rest => sends rest
  end.

Definition crashes (acts : list Action) : bool :=
  existsb (fun a => match a with Crash => true | _ => false end) acts.

End Protocol.

(** ** A recording transport

    One instance of the collaborators: connections and message types are
    numbers, an error is its text, and the world records every call made to
    a codec or to the logger, in order.  Writes succeed while [writes_ok]
    allows ([None]: always); reads return the entries of the inboxes. *)

Module MockTransport.

Inductive Call : Set :=
| CallSendJSONMessage (kind : nat) (msg : string) (conn : nat)
| CallWriteTLVMessage (conn : nat) (kind : nat) (msg : string)
| CallReceiveJSONMessage (conn : nat) (kind : nat)
| CallReadTLVMessage (conn : nat) (kind : nat)
| CallPrintln (line : string)
| CallPrintf (text : string).

Record world : Set := {
  calls : list Call;
  writes_ok : option nat;
  json_inbox : list (option JSONMessage * option string);
  tlv_inbox : list (option (list byte) * Z * option string)
}.

Definition record (c : Call) (w : world) : world :=
  {| calls := calls w ++ [c]; writes_ok := writes_ok w;
     json_inbox := json_inbox w; tlv_inbox := tlv_inbox w |}.

Definition write (c : Call) (w : world) : result (option string) * world :=
  let w := record c w in
  match writes_ok w with
  | None => (Ok None, w)
  | Some O => (Ok (Some "write: broken pipe"%string), w)
  | Some (S n) =>
      (Ok None, {| calls := calls w; writes_ok := Some n;
                   json_inbox := json_inbox w; tlv_inbox := tlv_inbox w |})
  end.

Definition read_json (c : Call) (w : world)
  : result (option JSONMessage * option string) * world :=
  let w := record c w in
  match json_inbox w with
  | [] => (Ok (None, Some "EOF"%string), w)
  | r :: rest =>
      (Ok r, {| calls := calls w; writes_ok := writes_ok w;
                json_inbox := rest; tlv_inbox := tlv_inbox w |})
  end.

Definition read_tlv (c : Call) (w : world)
  : result (option (list byte) * Z * option string) * world :=
  let w := record c w in
  match tlv_inbox w with
  | [] => (Ok (None, 0, Some "EOF"%string), w)
  | r :: rest =>
      (Ok r, {| calls := calls w; writes_ok := writes_ok w;
                json_inbox := json_inbox w; tlv_inbox := rest |})
  end.

Definition mock : Collaborators := {|
  Connection := nat;
  MessageType := nat;
  TestMsg := 5%nat;
  error := string;
  errors_New := fun text => text;
  World := world;
  SendJSONMessage := fun kind msg conn => write (CallSendJSONMessage kind msg conn);
  WriteTLVMessage := fun conn kind msg => write (CallWriteTLVMessage conn kind msg);
  ReceiveJSONMessage := fun conn kind => read_json (CallReceiveJSONMessage conn kind);
  ReadTLVMessage := fun conn kind => read_tlv (CallReadTLVMessage conn kind);
  log_Println := fun line => record (CallPrintln line);
  log_Printf := fun text => record (CallPrintf text)
|}.

(** A fresh world in which [n] writes succeed ([None]: all of them). *)
Definition fresh (n : option nat) : world :=
  {| calls := []; writes_ok := n; json_inbox := []; tlv_inbox := [] |}.

(** A fresh world whose next textual read yields [r]. *)
Definition awaiting (r : option JSONMessage * option string) : world :=
  {| calls := []; writes_ok := None; json_inbox := [r]; tlv_inbox := [] |}.

Definition is_json_codec_call (c : Call) : bool :=
  match c with
  | CallSendJSONMessage _ _ _ | CallReceiveJSONMessage _ _ => true
  | _ => false
  end.

Definition is_tlv_codec_call (c : Call) : bool :=
  match c with
  | CallWriteTLVMessage _ _ _ | CallReadTLVMessage _ _ => true
  | _ => false
  end.

(** The two exchanges over connection [conn] of the recording transport. *)
Definition textual (conn : nat) : @Messager mock :=
  @jsonMessager_Messager mock (@Build_jsonMessager mock conn).
Definition binary (conn : nat) : @Messager mock :=
  @tlvMessager_Messager mock (@Build_tlvMessager mock conn).

End MockTransport.

(** ** Records used as examples *)

Definition exported (name : string) : reflect.StructField :=
  {| reflect.Name := name; reflect.PkgPath := "" |}.

Definition int (n : Z) : Value := VInteger KInt n None.

(** [{A: 5, B: "x"}] *)
Definition recordAB : Value :=
  VStruct None [(exported "A", int 5); (exported "B", VString "x")].

(** [{Inner: {C: 1}}]; [rendering] is the inner type's [String()], if any. *)
Definition recordInner (rendering : option string) : Value :=
  VStruct None [(exported "Inner", VStruct rendering [(exported "C", int 1)])].

(** [{A: 5}] with [A] of type [uint]. *)
Definition recordUint : Value :=
  VStruct None [(exported "A", VInteger KUint 5 None)].

(** [{A: 1, B: 2, C: 3}] *)
Definition recordABC : Value :=
  VStruct None [(exported "A", int 1); (exported "B", int 2); (exported "C", int 3)].

(** [{A: 1, Inner: {B: 2, C: 3}, D: 4}] *)
Definition recordDeep : Value :=
  VStruct None [(exported "A", int 1);
                (exported "Inner",
                 VStruct None [(exported "B", int 2); (exported "C", int 3)]);
                (exported "D", int 4)].

(** [{Outer: {Inner: {C: 1}}}] *)
Definition recordOuter : Value :=
  VStruct None [(exported "Outer", recordInner None)].

(** [{A: 1, Flag: true, Ratio: 0.5, B: 2}] *)
Definition recordMixed : Value :=
  VStruct None [(exported "A", int 1); (exported "Flag", VOpaque KBool);
                (exported "Ratio", VOpaque KFloat64); (exported "B", int 2)].

(** ** Definitions used by the further properties *)

(** An action with [p] put in front of the line it sends. *)
Definition prefixed (p : string) (a : Action) : Action :=
  match a with
  | Send line => Send (p ^^ line)
  | Log line => Log line
  | Crash => Crash
  end.

(** What the recording transport records when a plan is carried out to its
    end, or to the point where it panics; [sent] is the call an exchange
    makes for a line. *)
Fixpoint transcript (sent : string -> MockTransport.Call) (acts : list Action)
  : list MockTransport.Call :=
  match acts with
  | [] => []
  | Send line :: rest => sent line :: transcript sent rest
  | Log line :: rest => MockTransport.CallPrintln line :: transcript sent rest
  | Crash :: _ => []
  end.

(** The shape of a metric line under [prefix]. *)
Definition metric_line (prefix line : string) : Prop :=
  exists path rendered,
    line = prefix ^^ path ^^ ": " ^^ rendered ^^ newline.

(** An exchange of the recording transport that sends like the binary
    exchange over connection [conn] and panics in every other method. *)
Definition sendOnly (conn : nat) : @Messager MockTransport.mock :=
  @Build_Messager MockTransport.mock
    (@SendMessage MockTransport.mock (MockTransport.binary conn))
    (fun _ _ _ => @panic MockTransport.mock _)
    (fun _ => @panic MockTransport.mock _)
    (@panic MockTransport.mock _).

(** [{A: 1, b: 2, C: 3}] with [b] an unexported field of package main. *)
Definition recordHidden : Value :=
  VStruct None [(exported "A", int 1);
                ({| reflect.Name := "b"; reflect.PkgPath := "main" |}, int 2);
                (exported "C", int 3)].

(** [{Flag: true, Ratio: 0.5, Next: nil}] *)
Definition recordOpaque : list (reflect.StructField * Value) :=
  [(exported "Flag", VOpaque KBool); (exported "Ratio", VOpaque KFloat64);
   (exported "Next", VPtr None)].

(** * Properties *)

Lemma append_assoc (a b c : string) : (a ^^ b) ^^ c = a ^^ b ^^ c.
Proof.
  induction a as [| x a IH]; simpl; [reflexivity | now rewrite IH].
Qed.

(** ** Decimal text needs no JSON escaping *)

Lemma json_escape_char_plain (c : ascii) :
  plain_char c = true -> json_escape_char c = String c EmptyString.
Proof.
  unfold plain_char, json_escape_char.
  set (n := nat_of_ascii c). intros Hc.
  assert (Hn : (48 <= n <= 57 \/ n = 45)%nat).
  { apply orb_true_iff in Hc as [Hc | Hc].
    - apply andb_true_iff in Hc as [H1 H2].
      apply Nat.leb_le in H1, H2. lia.
    - apply Nat.eqb_eq in Hc. lia. }
  assert (H34 : (n =? 34)%nat = false) by (apply Nat.eqb_neq; lia).
  assert (H92 : (n =? 92)%nat = false) by (apply Nat.eqb_neq; lia).
  assert (H10 : (n =? 10)%nat = false) by (apply Nat.eqb_neq; lia).
  assert (H13 : (n =? 13)%nat = false) by (apply Nat.eqb_neq; lia).
  assert (H9 : (n =? 9)%nat = false) by (apply Nat.eqb_neq; lia).
  assert (H32 : (n <? 32)%nat = false) by (apply Nat.ltb_ge; lia).
  assert (H60 : (n =? 60)%nat = false) by (apply Nat.eqb_neq; lia).
  assert (H62 : (n =? 62)%nat = false) by (apply Nat.eqb_neq; lia).
  assert (H38 : (n =? 38)%nat = false) by (apply Nat.eqb_neq; lia).
  rewrite H34, H92, H10, H13, H9, H32, H60, H62, H38. reflexivity.
Qed.

Lemma json_escape_plain (s : string) :
  plain s = true -> json_escape s = s.
Proof.
  induction s as [|c rest IH]; simpl; intros Hs.
  - reflexivity.
  - apply andb_true_iff in Hs as [Hc Hrest].
    rewrite (json_escape_char_plain c Hc), (IH Hrest). reflexivity.
Qed.

Lemma plain_string_of_uint (d : Decimal.uint) :
  plain (NilEmpty.string_of_uint d) = true.
Proof.
  induction d; simpl; auto.
Qed.

Lemma plain_FormatInt (i : Z) : plain (strconv_FormatInt i) = true.
Proof.
  unfold strconv_FormatInt, NilZero.string_of_int, NilZero.string_of_uint.
  destruct (Z.to_int i) as [d | d]; destruct d; simpl;
    auto using plain_string_of_uint.
Qed.

Lemma json_string_FormatInt (i : Z) :
  json_string (strconv_FormatInt i) = dquote ^^ strconv_FormatInt i ^^ dquote.
Proof.
  unfold json_string. rewrite (json_escape_plain _ (plain_FormatInt i)).
  reflexivity.
Qed.

Lemma Value_nested_ind (P : Value -> Prop) :
  (forall k n fmt, P (VInteger k n fmt)) ->
  (forall s, P (VString s)) ->
  (forall stringer fields,
      Forall (fun x => P (snd x)) fields -> P (VStruct stringer fields)) ->
  P (VPtr None) ->
  (forall elem, P elem -> P (VPtr (Some elem))) ->
  (forall k, P (VOpaque k)) ->
  forall v, P v.
Proof.
  intros Hint Hstr Hstruct Hnil Hptr Hopq.
  fix IH 1.
  intros [k n fmt | s | stringer fields | [elem |] | k].
  - apply Hint.
  - apply Hstr.
  - apply Hstruct. revert fields.
    fix IHfields 1.
    intros [| [f fv] rest]; constructor.
    + apply IH.
    + apply IHfields.
  - apply Hptr, IH.
  - apply Hnil.
  - apply Hopq.
Qed.

(** ** The walk carries out its plan *)

Section Laws.
Context {env : Collaborators}.

Lemma andThen_id (c : M (option error)) (w : World) :
  andThen c (ret None) w = c w.
Proof.
  unfold andThen, bind, ret.
  destruct (c w) as [[[e |] |] w']; reflexivity.
Qed.

Lemma andThen_ext (c k k' : M (option error)) (w : World) :
  (forall w', k w' = k' w') -> andThen c k w = andThen c k' w.
Proof.
  intros Hk. unfold andThen, bind.
  destruct (c w) as [[[e |] |] w']; auto.
Qed.

Lemma perform_app (m : Messager) (a b : list Action) (w : World) :
  perform m (a ++ b) w = andThen (perform m a) (perform m b) w.
Proof.
  revert w. induction a as [| act a IH]; intros w.
  - reflexivity.
  - destruct act as [line | line |]; simpl.
    + unfold andThen, bind.
      destruct (SendMessage m TestMsg (bytes line) w) as [[[e |] |] w'];
        try reflexivity.
      rewrite IH. reflexivity.
    + unfold andThen, bind, Println.
      rewrite IH. reflexivity.
    + reflexivity.
Qed.

Lemma SendMetrics_nested (m : Messager) (prefix : string)
  (stringer st : option string) (f : reflect.StructField)
  (fs rest : list (reflect.StructField * Value)) (w : World) :
  SendMetrics (VStruct stringer ((f, VStruct st fs) :: rest)) m prefix w =
  (if reflect.IsExported f then
     andThen
       match st with
       | Some s =>
           SendMessage m TestMsg (bytes (Sprintf_metric prefix (reflect.Name f) s))
       | None => SendMetrics (VStruct st fs) m (prefix ^^ reflect.Name f ^^ ".")
       end
       (SendMetrics (VStruct stringer rest) m prefix)
   else panic) w.
Proof. reflexivity. Qed.

Lemma SendMetrics_perform (metrics : Value) :
  forall (m : Messager) (prefix : string) (w : World),
    SendMetrics metrics m prefix w = perform m (plan prefix metrics) w.
Proof.
  induction metrics as [k n fmt | s | stringer fields IH | | elem IH | k]
    using Value_nested_ind; intros m prefix w; try reflexivity.
  - revert w. induction IH as [| [f fv] rest Hfv _ IHrest]; intros w.
    + reflexivity.
    + simpl in Hfv.
      change (plan prefix (VStruct stringer ((f, fv) :: rest)))
        with (fieldPlan prefix f fv (plan (prefix ^^ reflect.Name f ^^ ".") fv)
              ++ plan prefix (VStruct stringer rest)).
      rewrite perform_app.
      destruct fv as [k n fmt | s | st fs | elem | k].
      3: { rewrite SendMetrics_nested. unfold fieldPlan. simpl Kind_of. cbv iota.
           destruct (reflect.IsExported f); [| reflexivity].
           unfold andThen, bind.
           destruct st as [r |]; simpl Stringer_String; cbv iota.
           - simpl perform. unfold bind.
             destruct (SendMessage m TestMsg _ w) as [[[e |] |] w'];
               try reflexivity.
             apply IHrest.
           - rewrite Hfv.
             destruct (perform m _ w) as [[[e |] |] w']; try reflexivity.
             apply IHrest. }
      1: destruct k.
      14: destruct k.
      all: unfold andThen, bind, fieldPlan;
        cbn; unfold bind, Field_Interface, Println, ret, panic.
      all: try (destruct (reflect.IsExported f); cbn; unfold bind, ret, panic;
                try reflexivity).
      all: try (destruct (SendMessage m TestMsg _ w) as [[[e |] |] w']; cbn;
                try reflexivity).
      all: apply IHrest.
  - apply IH.
Qed.

Lemma plan_app (prefix : string) (stringer : option string)
  (fs1 fs2 : list (reflect.StructField * Value)) :
  plan prefix (VStruct stringer (fs1 ++ fs2)) =
  plan prefix (VStruct stringer fs1) ++ plan prefix (VStruct stringer fs2).
Proof.
  induction fs1 as [| [f fv] rest IH].
  - reflexivity.
  - change (plan prefix (VStruct stringer (((f, fv) :: rest) ++ fs2)))
      with (fieldPlan prefix f fv (plan (prefix ^^ reflect.Name f ^^ ".") fv)
            ++ plan prefix (VStruct stringer (rest ++ fs2))).
    rewrite IH, app_assoc. reflexivity.
Qed.

Lemma plan_cons (prefix : string) (stringer : option string)
  (f : reflect.StructField) (fv : Value)
  (rest : list (reflect.StructField * Value)) :
  plan prefix (VStruct stringer ((f, fv) :: rest)) =
  fieldPlan prefix f fv (plan (prefix ^^ reflect.Name f ^^ ".") fv)
  ++ plan prefix (VStruct stringer rest).
Proof. reflexivity. Qed.

Lemma fieldPlan_unrecognized (prefix : string) (f : reflect.StructField)
  (fv : Value) (nested : list Action) :
  recognized (Kind_of fv) = false ->
  fieldPlan prefix f fv nested = [Log (unhandled (Kind_of fv))].
Proof.
  unfold fieldPlan. destruct (Kind_of fv); simpl;
    intros Hk; try discriminate Hk; reflexivity.
Qed.

Lemma plan_skip (prefix : string) (stringer : option string)
  (pre post : list (reflect.StructField * Value))
  (f : reflect.StructField) (fv : Value) :
  recognized (Kind_of fv) = false ->
  plan prefix (VStruct stringer (pre ++ (f, fv) :: post)) =
  plan prefix (VStruct stringer pre)
  ++ Log (unhandled (Kind_of fv)) :: plan prefix (VStruct stringer post).
Proof.
  intros Hk.
  rewrite plan_app, plan_cons, (fieldPlan_unrecognized _ _ _ _ Hk).
  reflexivity.
Qed.

Lemma sends_app (a b : list Action) : sends (a ++ b) = sends a ++ sends b.
Proof.
  induction a as [| [line | line |] a IH]; simpl; rewrite ?IH; reflexivity.
Qed.

Lemma crashes_app (a b : list Action) :
  crashes (a ++ b) = crashes a || crashes b.
Proof. apply existsb_app. Qed.

(** A plan without a crash, carried out in a world where sending keeps
    succeeding, returns nil. *)
Lemma perform_succeeds (m : Messager) (Inv : World -> Prop) (acts : list Action) :
  (forall line w, Inv w ->
     exists w', SendMessage m TestMsg line w = (Ok None, w') /\ Inv w') ->
  (forall line w, Inv w -> Inv (log_Println line w)) ->
  crashes acts = false ->
  forall w, Inv w -> exists w', perform m acts w = (Ok None, w') /\ Inv w'.
Proof.
  intros Hsend Hlog.
  induction acts as [| [line | line |] acts IH]; intros Hc w Hw.
  - exists w. split; [reflexivity | exact Hw].
  - destruct (Hsend (bytes line) w Hw) as [w1 [Hs Hw1]].
    destruct (IH Hc w1 Hw1) as [w' [Hp Hw']].
    exists w'. split; [| exact Hw'].
    simpl. unfold bind. rewrite Hs. exact Hp.
  - destruct (IH Hc _ (Hlog line w Hw)) as [w' [Hp Hw']].
    exists w'. split; [| exact Hw'].
    simpl. unfold bind, Println. exact Hp.
  - discriminate Hc.
Qed.

End Laws.

(** ** The textual exchange *)

(** C1 (as amended).  On the textual exchange [SendMessage] is one call of
    the JSON-message codec, with the payload bytes as a string, and no call
    of the TLV codec.  [SendS2CResults] does not go through the JSON-message
    codec: it serialises the three-field record itself and hands the text
    to the TLV writer in one call, as a message of type [TestMsg].  On the
    recording transport each of the two operations adds exactly that one
    call to the record. *)
Theorem C1_textual_sends :
  forall (env : Collaborators) (jm : jsonMessager),
    (forall kind contents w,
        SendMessage (jsonMessager_Messager jm) kind contents w =
        SendJSONMessage kind (string_of_bytes contents) (jm_conn jm) w)
    /\ (forall t u s w,
          SendS2CResults (jsonMessager_Messager jm) t u s w =
          WriteTLVMessage (jm_conn jm) TestMsg
            (json_Marshal_s2cResult
               {| ThroughputValue := strconv_FormatInt t;
                  UnsentDataAmount := strconv_FormatInt u;
                  TotalSentByte := strconv_FormatInt s |}) w)
    /\ (forall conn kind contents w,
          MockTransport.calls
            (snd (SendMessage (MockTransport.textual conn) kind contents w)) =
          MockTransport.calls w
          ++ [MockTransport.CallSendJSONMessage kind (string_of_bytes contents) conn])
    /\ (forall conn t u s w,
          exists text,
            MockTransport.calls
              (snd (SendS2CResults (MockTransport.textual conn) t u s w)) =
            MockTransport.calls w
            ++ [MockTransport.CallWriteTLVMessage conn 5 text]).
Proof.
  intros env jm. repeat split.
  - intros conn kind contents w. simpl.
    unfold MockTransport.write. simpl.
    destruct (MockTransport.writes_ok w) as [[| n] |]; reflexivity.
  - intros conn t u s w. eexists. simpl.
    unfold MockTransport.write. simpl.
    destruct (MockTransport.writes_ok w) as [[| n] |]; reflexivity.
Qed.

(** C1, the claim as stated, fails: [SendS2CResults] on the textual exchange
    calls the TLV codec and makes no call of the JSON-message codec. *)
Lemma C1_results_bypass_json_codec :
  existsb MockTransport.is_tlv_codec_call
    (MockTransport.calls
       (snd (SendS2CResults (MockTransport.textual 7) 1000 0 125000
               (MockTransport.fresh None)))) = true
  /\ existsb MockTransport.is_json_codec_call
       (MockTransport.calls
          (snd (SendS2CResults (MockTransport.textual 7) 1000 0 125000
                  (MockTransport.fresh None)))) = false.
Proof. split; reflexivity. Qed.

(** ** The completion record *)

(** C3.  For all three numbers the textual exchange sends, as one message of
    type [TestMsg], the JSON object whose three members are JSON strings
    holding the decimal renderings, and the binary exchange sends the three
    decimal renderings separated by single blanks.  For [(1000, 0, 125000)]
    the recording transport receives exactly the two texts of the
    specification. *)
Theorem C3_s2c_results_payloads :
  (forall (env : Collaborators) (jm : jsonMessager) (tm : tlvMessager)
          (t u s : Z) (w : World),
      SendS2CResults (jsonMessager_Messager jm) t u s w =
      WriteTLVMessage (jm_conn jm) TestMsg
        ("{" ^^ dquote ^^ "ThroughputValue" ^^ dquote ^^ ":"
             ^^ dquote ^^ strconv_FormatInt t ^^ dquote
         ^^ "," ^^ dquote ^^ "UnsentDataAmount" ^^ dquote ^^ ":"
             ^^ dquote ^^ strconv_FormatInt u ^^ dquote
         ^^ "," ^^ dquote ^^ "TotalSentByte" ^^ dquote ^^ ":"
             ^^ dquote ^^ strconv_FormatInt s ^^ dquote
         ^^ "}") w
      /\ SendS2CResults (tlvMessager_Messager tm) t u s w =
         WriteTLVMessage (tm_conn tm) TestMsg
           (strconv_FormatInt t ^^ " " ^^ strconv_FormatInt u ^^ " "
            ^^ strconv_FormatInt s) w)
  /\ SendS2CResults (MockTransport.textual 7) 1000 0 125000
       (MockTransport.fresh None) =
     (Ok None,
      {| MockTransport.calls :=
           [MockTransport.CallWriteTLVMessage 7 5
              ("{" ^^ dquote ^^ "ThroughputValue" ^^ dquote ^^ ":"
                   ^^ dquote ^^ "1000" ^^ dquote
               ^^ "," ^^ dquote ^^ "UnsentDataAmount" ^^ dquote ^^ ":"
                   ^^ dquote ^^ "0" ^^ dquote
               ^^ "," ^^ dquote ^^ "TotalSentByte" ^^ dquote ^^ ":"
                   ^^ dquote ^^ "125000" ^^ dquote
               ^^ "}")];
         MockTransport.writes_ok := None;
         MockTransport.json_inbox := [];
         MockTransport.tlv_inbox := [] |})
  /\ SendS2CResults (MockTransport.binary 7) 1000 0 125000
       (MockTransport.fresh None) =
     (Ok None,
      {| MockTransport.calls :=
           [MockTransport.CallWriteTLVMessage 7 5 "1000 0 125000"];
         MockTransport.writes_ok := None;
         MockTransport.json_inbox := [];
         MockTransport.tlv_inbox := [] |}).
Proof.
  split; [| split; reflexivity].
  intros env jm tm t u s w. split; [| reflexivity].
  change (SendS2CResults (jsonMessager_Messager jm) t u s w)
    with (WriteTLVMessage (jm_conn jm) TestMsg
            (json_Marshal_s2cResult
               {| ThroughputValue := strconv_FormatInt t;
                  UnsentDataAmount := strconv_FormatInt u;
                  TotalSentByte := strconv_FormatInt s |}) w).
  f_equal. unfold json_Marshal_s2cResult.
  cbn [ThroughputValue UnsentDataAmount TotalSentByte].
  rewrite !json_string_FormatInt.
  change (json_string "ThroughputValue")
    with (dquote ^^ "ThroughputValue" ^^ dquote).
  change (json_string "UnsentDataAmount")
    with (dquote ^^ "UnsentDataAmount" ^^ dquote).
  change (json_string "TotalSentByte")
    with (dquote ^^ "TotalSentByte" ^^ dquote).
  rewrite !append_assoc. reflexivity.
Qed.

(** ** Receiving on the textual exchange *)

(** C4.  When the JSON-message read yields no message, [ReceiveMessage] on
    the textual exchange returns no payload and a non-nil error: the error
    of the read itself when it gave one, and otherwise the error made from
    the text "empty message received without error". *)
Theorem C4_textual_receive_without_message :
  forall (env : Collaborators) (jm : jsonMessager) (kind : MessageType)
         (err : option error) (w w' : World),
    ReceiveJSONMessage (jm_conn jm) kind w = (Ok (None, err), w') ->
    ReceiveMessage (jsonMessager_Messager jm) kind w =
    (Ok (None,
         Some match err with
              | Some e => e
              | None => errors_New "empty message received without error"
              end),
     w').
Proof.
  intros env jm kind err w w' Hread.
  simpl. unfold jsonMessager_ReceiveMessage, bind.
  rewrite Hread. destruct err as [e |]; reflexivity.
Qed.

(** ** The factory *)

(** C5.  For [JSON] and for [TLV] the factory returns an exchange, not nil,
    without touching the world, and the [Encoding] method of that exchange
    returns the requested value in every state of the world; for [Unknown]
    it returns nil after logging the error. *)
Theorem C5_factory_encoding :
  forall (env : Collaborators) (conn : Connection) (w : World),
    (exists m,
        Encoding_Messager JSON conn w = (Ok (Some m), w)
        /\ forall w', Messager_Encoding m w' = (Ok JSON, w'))
    /\ (exists m,
          Encoding_Messager TLV conn w = (Ok (Some m), w)
          /\ forall w', Messager_Encoding m w' = (Ok TLV, w'))
    /\ Encoding_Messager Unknown conn w =
       (Ok None, log_Println "Error: Messager() called for Unknown type" w).
Proof.
  intros env conn w. split; [| split].
  - exists (jsonMessager_Messager {| jm_conn := conn |}). split.
    + reflexivity.
    + intros w'. reflexivity.
  - exists (tlvMessager_Messager {| tm_conn := conn |}). split.
    + reflexivity.
    + intros w'. reflexivity.
  - reflexivity.
Qed.

(** ** Integer fields *)

(** C2, evaluated where it fails.  A field of kind [uint] has no case in the
    switch: for the record [{A: 5}] with [A] of type [uint] the walk sends
    nothing through the exchange, logs the kind as unhandled and returns
    nil.  The same field of kind [int] is sent as the line "A: 5". *)
Theorem C2_uint_field_sends_nothing :
  forall (env : Collaborators) (m : Messager) (w : World),
    SendMetrics recordUint m "" w =
    (Ok None, log_Println "Unhandled case in SendMetrics: uint" w)
    /\ sends (plan "" recordUint) = []
    /\ SendMetrics (VStruct None [(exported "A", int 5)]) m "" w =
       SendMessage m TestMsg (bytes ("A: 5" ^^ newline)) w.
Proof.
  intros env m w. split; [reflexivity | split; [reflexivity |]].
  rewrite SendMetrics_perform. simpl. apply andThen_id.
Qed.

(** ** The order of the walk *)

(** C6.  For [{A: 5, B: "x"}] and the empty prefix the walk sends the line
    "A: 5" and then the line "B: x", each ended by a newline, and nothing
    else: on the recording transport these are the only two calls, in that
    order.  In general the walk performs the plan of the record, and the
    plan of a record lists the actions of its fields in declared order: the
    plan of fields [fs1] followed by [fs2] is the plan of [fs1] followed by
    the plan of [fs2]. *)
Theorem C6_fields_in_declared_order :
  SendMetrics recordAB (MockTransport.binary 7) "" (MockTransport.fresh None) =
  (Ok None,
   {| MockTransport.calls :=
        [MockTransport.CallWriteTLVMessage 7 5 ("A: 5" ^^ newline);
         MockTransport.CallWriteTLVMessage 7 5 ("B: x" ^^ newline)];
      MockTransport.writes_ok := None;
      MockTransport.json_inbox := [];
      MockTransport.tlv_inbox := [] |})
  /\ (forall (env : Collaborators) (m : Messager) (w : World),
        SendMetrics recordAB m "" w =
        andThen (SendMessage m TestMsg (bytes ("A: 5" ^^ newline)))
                (SendMessage m TestMsg (bytes ("B: x" ^^ newline))) w)
  /\ (forall (env : Collaborators) (metrics : Value) (m : Messager)
             (prefix : string) (w : World),
        SendMetrics metrics m prefix w = perform m (plan prefix metrics) w)
  /\ (forall prefix stringer fs1 fs2,
        plan prefix (VStruct stringer (fs1 ++ fs2)) =
        plan prefix (VStruct stringer fs1) ++ plan prefix (VStruct stringer fs2)).
Proof.
  split; [reflexivity | split; [| split]].
  - intros env m w. rewrite SendMetrics_perform.
    change (perform m (plan "" recordAB))
      with (andThen (SendMessage m TestMsg (bytes ("A: 5" ^^ newline)))
              (andThen (SendMessage m TestMsg (bytes ("B: x" ^^ newline)))
                 (ret None))).
    apply andThen_ext. intros w'. apply andThen_id.
  - intros env metrics m prefix w. apply SendMetrics_perform.
  - intros prefix stringer fs1 fs2. apply plan_app.
Qed.

(** ** Nested records *)

(** C7.  For [{Inner: {C: 1}}] and the empty prefix: when the inner type
    has a [String] method the walk sends the single line "Inner: " followed
    by the rendering, and otherwise it walks the inner record under the
    prefix "Inner." and so sends "Inner.C: 1".  For any prefix and field
    name the two cases read the same way, and the flattening is transitive:
    [{Outer: {Inner: {C: 1}}}] is sent as "Outer.Inner.C: 1". *)
Theorem C7_nested_record :
  forall (env : Collaborators) (m : Messager) (w : World),
    (forall rendering,
        SendMetrics (recordInner (Some rendering)) m "" w =
        SendMessage m TestMsg (bytes ("Inner: " ^^ rendering ^^ newline)) w)
    /\ SendMetrics (recordInner None) m "" w =
       SendMessage m TestMsg (bytes ("Inner.C: 1" ^^ newline)) w
    /\ (forall prefix name stringer rendering fs,
          SendMetrics
            (VStruct stringer [(exported name, VStruct (Some rendering) fs)])
            m prefix w =
          SendMessage m TestMsg
            (bytes (prefix ^^ name ^^ ": " ^^ rendering ^^ newline)) w)
    /\ (forall prefix name stringer fs,
          SendMetrics (VStruct stringer [(exported name, VStruct None fs)])
            m prefix w =
          SendMetrics (VStruct None fs) m (prefix ^^ name ^^ ".") w)
    /\ SendMetrics recordOuter m "" w =
       SendMessage m TestMsg (bytes ("Outer.Inner.C: 1" ^^ newline)) w.
Proof.
  intros env m w.
  assert (Hsome : forall prefix name stringer rendering fs,
             SendMetrics
               (VStruct stringer [(exported name, VStruct (Some rendering) fs)])
               m prefix w =
             SendMessage m TestMsg
               (bytes (prefix ^^ name ^^ ": " ^^ rendering ^^ newline)) w).
  { intros prefix name stringer rendering fs.
    rewrite SendMetrics_nested. simpl reflect.IsExported. cbv iota.
    apply andThen_id. }
  assert (Hnone : forall prefix name stringer fs,
             SendMetrics (VStruct stringer [(exported name, VStruct None fs)])
               m prefix w =
             SendMetrics (VStruct None fs) m (prefix ^^ name ^^ ".") w).
  { intros prefix name stringer fs.
    rewrite SendMetrics_nested. simpl reflect.IsExported. cbv iota.
    apply andThen_id. }
  repeat split.
  - intros rendering. apply Hsome.
  - unfold recordInner. rewrite Hnone, SendMetrics_perform. apply andThen_id.
  - exact Hsome.
  - exact Hnone.
  - unfold recordOuter, recordInner.
    rewrite !Hnone, SendMetrics_perform. apply andThen_id.
Qed.

(** ** Pointers *)

(** C10.  Passing a pointer to a value, or a pointer to such a pointer, and
    so on, has the effect and the result of passing the value itself. *)
Theorem C10_pointer_transparent :
  forall (env : Collaborators) (n : nat) (metrics : Value) (m : Messager)
         (prefix : string) (w : World),
    SendMetrics (addr_chain n metrics) m prefix w =
    SendMetrics metrics m prefix w.
Proof.
  intros env n metrics m prefix w.
  induction n as [| n IH].
  - reflexivity.
  - simpl addr_chain. unfold addr. simpl SendMetrics. exact IH.
Qed.

(** ** Failing sends *)

(** C8.  Let the plan of the walk be [pre], then the line [line], then
    [post], the lines of nested records included in their place.  If all of
    [pre] is carried out without an error and sending [line] returns the
    error [e], the walk returns [e] itself, in the state of the world the
    failed send left: nothing of [post] is sent or logged, and the walk is
    the walk of the plan cut after [line]. *)
Theorem C8_first_error_aborts :
  forall (env : Collaborators) (metrics : Value) (m : Messager)
         (prefix : string) (pre : list Action) (line : string)
         (post : list Action) (e : error) (w w1 w2 : World),
    plan prefix metrics = pre ++ Send line :: post ->
    perform m pre w = (Ok None, w1) ->
    SendMessage m TestMsg (bytes line) w1 = (Ok (Some e), w2) ->
    SendMetrics metrics m prefix w = (Ok (Some e), w2)
    /\ perform m (pre ++ [Send line]) w = (Ok (Some e), w2).
Proof.
  intros env metrics m prefix pre line post e w w1 w2 Hplan Hpre Hsend.
  rewrite SendMetrics_perform, Hplan, !perform_app.
  unfold andThen, bind. rewrite Hpre. simpl. unfold bind.
  rewrite Hsend. split; reflexivity.
Qed.

(** ** Fields of other kinds *)

(** C9.  A field whose kind has no case in the switch is not sent: the walk
    of a record with such a field between the fields [pre] and [post] is
    the walk of [pre], one logged diagnostic, and the walk of [post]; its
    lines are those of the record without the field, and it panics only
    where that record does.  No such field makes the walk return an error:
    whenever sending keeps succeeding (along the states described by
    [Inv]) and the plan has no panic, the walk returns nil, whatever the
    number of such fields. *)
Theorem C9_unsupported_fields_skipped :
  forall (env : Collaborators) (m : Messager) (prefix : string)
         (stringer : option string)
         (pre post : list (reflect.StructField * Value))
         (f : reflect.StructField) (fv : Value) (w : World),
    recognized (Kind_of fv) = false ->
    SendMetrics (VStruct stringer (pre ++ (f, fv) :: post)) m prefix w =
    andThen (SendMetrics (VStruct stringer pre) m prefix)
      (fun w1 =>
         SendMetrics (VStruct stringer post) m prefix
           (log_Println (unhandled (Kind_of fv)) w1)) w
    /\ sends (plan prefix (VStruct stringer (pre ++ (f, fv) :: post))) =
       sends (plan prefix (VStruct stringer (pre ++ post)))
    /\ crashes (plan prefix (VStruct stringer (pre ++ (f, fv) :: post))) =
       crashes (plan prefix (VStruct stringer (pre ++ post)))
    /\ (forall (Inv : World -> Prop) (metrics : Value) (prefix' : string)
               (w0 : World),
          (forall line w1, Inv w1 ->
             exists w2, SendMessage m TestMsg line w1 = (Ok None, w2) /\ Inv w2) ->
          (forall line w1, Inv w1 -> Inv (log_Println line w1)) ->
          Inv w0 ->
          crashes (plan prefix' metrics) = false ->
          exists w', SendMetrics metrics m prefix' w0 = (Ok None, w') /\ Inv w').
Proof.
  intros env m prefix stringer pre post f fv w Hkind.
  repeat split.
  - rewrite SendMetrics_perform, (plan_skip _ _ _ _ _ _ Hkind), perform_app.
    unfold andThen, bind.
    rewrite <- (SendMetrics_perform (VStruct stringer pre)).
    destruct (SendMetrics (VStruct stringer pre) m prefix w)
      as [[[e |] |] w1]; try reflexivity.
    cbn [perform]. unfold bind, Println.
    rewrite <- (SendMetrics_perform (VStruct stringer post)). reflexivity.
  - rewrite (plan_skip _ _ _ _ _ _ Hkind), plan_app, !sends_app. reflexivity.
  - rewrite (plan_skip _ _ _ _ _ _ Hkind), plan_app, !crashes_app. reflexivity.
  - intros Inv metrics prefix' w0 Hsend Hlog Hw0 Hcrash.
    destruct (perform_succeeds m Inv _ Hsend Hlog Hcrash w0 Hw0)
      as [w' [Hp Hw']].
    exists w'. split; [| exact Hw'].
    rewrite SendMetrics_perform. exact Hp.
Qed.

(** ** The theorems at concrete inputs, on the recording transport *)

(** C4 at a read that yields neither a message nor an error. *)
Lemma C4_empty_read_reported :
  ReceiveMessage (MockTransport.textual 7) 5%nat
    (MockTransport.awaiting (None, None)) =
  (Ok (None, Some "empty message received without error"%string),
   {| MockTransport.calls := [MockTransport.CallReceiveJSONMessage 7 5];
      MockTransport.writes_ok := None;
      MockTransport.json_inbox := [];
      MockTransport.tlv_inbox := [] |}).
Proof.
  apply (C4_textual_receive_without_message MockTransport.mock
           (@Build_jsonMessager MockTransport.mock 7%nat) 5%nat None
           (MockTransport.awaiting (None, None))).
  reflexivity.
Defined.

(** C8 at [{A: 1, Inner: {B: 2, C: 3}, D: 4}] when only the first write
    succeeds: "A: 1" is sent, sending "Inner.B: 2" fails, and neither
    "Inner.C: 3" nor "D: 4" reaches the transport. *)
Lemma C8_second_write_fails :
  SendMetrics recordDeep (MockTransport.binary 7) ""
    (MockTransport.fresh (Some 1%nat)) =
  (Ok (Some "write: broken pipe"%string),
   {| MockTransport.calls :=
        [MockTransport.CallWriteTLVMessage 7 5 ("A: 1" ^^ newline);
         MockTransport.CallWriteTLVMessage 7 5 ("Inner.B: 2" ^^ newline)];
      MockTransport.writes_ok := Some 0%nat;
      MockTransport.json_inbox := [];
      MockTransport.tlv_inbox := [] |}).
Proof.
  apply (C8_first_error_aborts MockTransport.mock recordDeep
           (MockTransport.binary 7) ""
           [Send ("A: 1" ^^ newline)]
           ("Inner.B: 2" ^^ newline)
           [Send ("Inner.C: 3" ^^ newline); Send ("D: 4" ^^ newline)]
           "write: broken pipe"%string
           (MockTransport.fresh (Some 1%nat))
           {| MockTransport.calls :=
                [MockTransport.CallWriteTLVMessage 7 5 ("A: 1" ^^ newline)];
              MockTransport.writes_ok := Some 0%nat;
              MockTransport.json_inbox := [];
              MockTransport.tlv_inbox := [] |}).
  - reflexivity.
  - reflexivity.
  - reflexivity.
Defined.

(** C9 at [{A: 1, Flag: true, Ratio: 0.5, B: 2}] with every write
    succeeding: the lines are "A: 1" and "B: 2", and the walk returns nil. *)
Lemma C9_bool_field_skipped :
  recognized (Kind_of (VOpaque KBool)) = false
  /\ sends (plan "" recordMixed) = ["A: 1" ^^ newline; "B: 2" ^^ newline]
  /\ exists w',
       SendMetrics recordMixed (MockTransport.binary 7) ""
         (MockTransport.fresh None) = (Ok None, w')
       /\ MockTransport.writes_ok w' = None.
Proof.
  destruct (C9_unsupported_fields_skipped MockTransport.mock
              (MockTransport.binary 7) "" None
              [(exported "A", int 1)]
              [(exported "Ratio", VOpaque KFloat64); (exported "B", int 2)]
              (exported "Flag") (VOpaque KBool)
              (MockTransport.fresh None) eq_refl)
    as [_ [Hsends [_ Hnil]]].
  split; [reflexivity | split].
  - etransitivity; [exact Hsends | reflexivity].
  - apply (Hnil (fun w => MockTransport.writes_ok w = None)).
    + intros line w1 Hw1.
      exists (MockTransport.record
                (MockTransport.CallWriteTLVMessage 7 5 (string_of_bytes line))
                w1).
      split; [| exact Hw1].
      simpl. unfold MockTransport.write. simpl. rewrite Hw1. reflexivity.
    + intros line w1 Hw1. exact Hw1.
    + reflexivity.
    + reflexivity.
Defined.

(** * Further properties of the package *)

(** ** Decimal text *)

Lemma FormatInt_inj (a b : Z) :
  strconv_FormatInt a = strconv_FormatInt b -> a = b.
Proof.
  unfold strconv_FormatInt. intros Heq.
  apply DecimalZ.to_int_inj.
  assert (Hnn : forall z, Z.to_int z <> Pos Nil /\ Z.to_int z <> Neg Nil).
  { intros [| q | q]; simpl; split; try discriminate;
      intros [= Hq]; exact (DecimalPos.Unsigned.to_uint_nonnil q Hq). }
  apply (f_equal NilZero.int_of_string) in Heq.
  rewrite !NilZero.isi in Heq by apply Hnn.
  now injection Heq.
Qed.

(** Text of digits and minus signs followed by another character ends
    where that character stands. *)
Lemma plain_sep_inj (c : ascii) (a a' r r' : string) :
  plain a = true -> plain a' = true -> plain_char c = false ->
  a ^^ String c r = a' ^^ String c r' -> a = a' /\ r = r'.
Proof.
  intros Ha Ha' Hc. revert a' Ha'.
  induction a as [| x a IH]; intros [| x' a'] Ha'; simpl; intros Heq.
  - injection Heq as ->. split; reflexivity.
  - injection Heq as -> _. simpl in Ha'.
    rewrite Hc in Ha'. discriminate Ha'.
  - injection Heq as -> _. simpl in Ha.
    rewrite Hc in Ha. discriminate Ha.
  - injection Heq as -> Hrest. simpl in Ha, Ha'.
    apply andb_true_iff in Ha as [_ Ha].
    apply andb_true_iff in Ha' as [_ Ha'].
    destruct (IH Ha a' Ha' Hrest) as [-> ->]. split; reflexivity.
Qed.

Lemma append_inj_l (p x y : string) : p ^^ x = p ^^ y -> x = y.
Proof.
  induction p as [| c p IH]; simpl; intros Heq.
  - exact Heq.
  - injection Heq as Heq. exact (IH Heq).
Qed.

Lemma json_Marshal_decimal (t u s : Z) :
  json_Marshal_s2cResult
    {| ThroughputValue := strconv_FormatInt t;
       UnsentDataAmount := strconv_FormatInt u;
       TotalSentByte := strconv_FormatInt s |} =
  ("{" ^^ dquote ^^ "ThroughputValue" ^^ dquote ^^ ":" ^^ dquote)
  ^^ strconv_FormatInt t
  ^^ (dquote ^^ "," ^^ dquote ^^ "UnsentDataAmount" ^^ dquote ^^ ":" ^^ dquote)
  ^^ strconv_FormatInt u
  ^^ (dquote ^^ "," ^^ dquote ^^ "TotalSentByte" ^^ dquote ^^ ":" ^^ dquote)
  ^^ strconv_FormatInt s
  ^^ dquote ^^ "}".
Proof.
  unfold json_Marshal_s2cResult.
  cbn [ThroughputValue UnsentDataAmount TotalSentByte].
  rewrite !json_string_FormatInt.
  change (json_string "ThroughputValue")
    with (dquote ^^ "ThroughputValue" ^^ dquote).
  change (json_string "UnsentDataAmount")
    with (dquote ^^ "UnsentDataAmount" ^^ dquote).
  change (json_string "TotalSentByte")
    with (dquote ^^ "TotalSentByte" ^^ dquote).
  rewrite !append_assoc. reflexivity.
Qed.

Lemma json_payload_inj (t u s t' u' s' : Z) :
  json_Marshal_s2cResult
    {| ThroughputValue := strconv_FormatInt t;
       UnsentDataAmount := strconv_FormatInt u;
       TotalSentByte := strconv_FormatInt s |} =
  json_Marshal_s2cResult
    {| ThroughputValue := strconv_FormatInt t';
       UnsentDataAmount := strconv_FormatInt u';
       TotalSentByte := strconv_FormatInt s' |} ->
  t = t' /\ u = u' /\ s = s'.
Proof.
  rewrite !json_Marshal_decimal. intros Heq.
  apply append_inj_l in Heq.
  apply plain_sep_inj in Heq as [Ht Heq];
    [| apply plain_FormatInt | apply plain_FormatInt | reflexivity].
  apply (append_inj_l
           ("," ^^ dquote ^^ "UnsentDataAmount" ^^ dquote ^^ ":" ^^ dquote))
    in Heq.
  apply plain_sep_inj in Heq as [Hu Heq];
    [| apply plain_FormatInt | apply plain_FormatInt | reflexivity].
  apply (append_inj_l
           ("," ^^ dquote ^^ "TotalSentByte" ^^ dquote ^^ ":" ^^ dquote))
    in Heq.
  apply plain_sep_inj in Heq as [Hs _];
    [| apply plain_FormatInt | apply plain_FormatInt | reflexivity].
  auto using FormatInt_inj.
Qed.

Lemma tlv_payload_inj (t u s t' u' s' : Z) :
  strconv_FormatInt t ^^ " " ^^ strconv_FormatInt u ^^ " "
  ^^ strconv_FormatInt s =
  strconv_FormatInt t' ^^ " " ^^ strconv_FormatInt u' ^^ " "
  ^^ strconv_FormatInt s' ->
  t = t' /\ u = u' /\ s = s'.
Proof.
  intros Heq.
  apply plain_sep_inj in Heq as [Ht Heq];
    [| apply plain_FormatInt | apply plain_FormatInt | reflexivity].
  apply plain_sep_inj in Heq as [Hu Hs];
    [| apply plain_FormatInt | apply plain_FormatInt | reflexivity].
  auto using FormatInt_inj.
Qed.

(** ** More on the encoding *)

(** X1.  For every value other than [JSON] and [TLV], [Unknown] and the
    values outside the enumeration included, the factory returns nil, and
    the only thing it does is log one line: the fixed error for [Unknown],
    and the value in decimal for any other. *)
Theorem Messager_nil_for_other_values :
  forall (env : Collaborators) (e : Encoding) (conn : Connection) (w : World),
    e <> JSON -> e <> TLV ->
    Encoding_Messager e conn w =
    (Ok None,
     if e =? Unknown
     then log_Println "Error: Messager() called for Unknown type" w
     else log_Printf ("Bad Encoding value: " ^^ strconv_FormatInt e ^^ newline) w).
Proof.
  intros env e conn w Hjson Htlv.
  unfold Encoding_Messager.
  destruct (Z.eqb_spec e Unknown) as [-> | Hunknown]; [reflexivity |].
  destruct (Z.eqb_spec e JSON) as [-> | _]; [contradiction |].
  destruct (Z.eqb_spec e TLV) as [-> | _]; [contradiction |].
  reflexivity.
Qed.

(** X2.  [Encoding.String] tells all values apart: two encodings with the
    same name are the same encoding, inside and outside the enumeration. *)
Theorem Encoding_String_injective :
  forall (e1 e2 : Encoding),
    Encoding_String e1 = Encoding_String e2 -> e1 = e2.
Proof.
  intros e1 e2. unfold Encoding_String, Unknown, JSON, TLV.
  destruct (Z.eqb_spec e1 0) as [-> | H10];
    [| destruct (Z.eqb_spec e1 1) as [-> | H11];
       [| destruct (Z.eqb_spec e1 2) as [-> | H12]]];
  (destruct (Z.eqb_spec e2 0) as [-> | H20];
    [| destruct (Z.eqb_spec e2 1) as [-> | H21];
       [| destruct (Z.eqb_spec e2 2) as [-> | H22]]]);
  simpl; intros Heq; try reflexivity; try discriminate Heq.
  apply FormatInt_inj.
  apply (append_inj_l "Bad Encoding value: "). exact Heq.
Qed.

(** ** More on receiving and on round trips *)

(** X3.  What [ReceiveMessage] on the textual exchange returns is read off
    the codec's result: the payload is the bytes of the message's [Msg] when
    there is a message and nil when there is none; with a message the
    codec's error comes along unchanged, so payload and error can both be
    set; and payload and error are never both nil. *)
Theorem textual_receive_never_both_nil :
  forall (env : Collaborators) (jm : jsonMessager) (kind : MessageType)
         (payload : option (list byte)) (err : option error) (w w' : World),
    ReceiveMessage (jsonMessager_Messager jm) kind w = (Ok (payload, err), w') ->
    (payload <> None \/ err <> None)
    /\ exists msg rerr,
         ReceiveJSONMessage (jm_conn jm) kind w = (Ok (msg, rerr), w')
         /\ payload = option_map (fun x => bytes (Msg x)) msg
         /\ (msg <> None -> err = rerr).
Proof.
  intros env jm kind payload err w w'.
  simpl. unfold jsonMessager_ReceiveMessage, bind.
  destruct (ReceiveJSONMessage (jm_conn jm) kind w)
    as [[[[msg |] [rerr |]] |] w1]; unfold ret; intros [= <- <- <-].
  - split; [left; discriminate |].
    exists (Some msg), (Some rerr). repeat split.
  - split; [left; discriminate |].
    exists (Some msg), None. repeat split.
  - split; [right; discriminate |].
    exists None, (Some rerr). repeat split.
  - split; [right; discriminate |].
    exists None, None. repeat split. intros Hmsg. now elim Hmsg.
Qed.

(** X4.  Round trip on the binary exchange: if the TLV writer accepts the
    text of a payload and the TLV reader then delivers the bytes of that
    text, [SendMessage] followed by [ReceiveMessage] returns the payload
    that was sent, byte for byte, and no error. *)
Theorem binary_send_receive_round_trip :
  forall (env : Collaborators) (tm : tlvMessager) (kind : MessageType)
         (p : list byte) (n : Z) (w w1 w2 : World),
    WriteTLVMessage (tm_conn tm) kind (string_of_bytes p) w = (Ok None, w1) ->
    ReadTLVMessage (tm_conn tm) kind w1 =
      (Ok (Some (bytes (string_of_bytes p)), n, None), w2) ->
    bind (SendMessage (tlvMessager_Messager tm) kind p)
         (fun _ => ReceiveMessage (tlvMessager_Messager tm) kind) w =
    (Ok (Some p, None), w2).
Proof.
  intros env tm kind p n w w1 w2 Hwrite Hread.
  simpl. unfold bind, tlvMessager_SendMessage, tlvMessager_ReceiveMessage.
  rewrite Hwrite. unfold bind. rewrite Hread.
  unfold ret, bytes, string_of_bytes.
  rewrite list_byte_of_string_of_list_byte. reflexivity.
Qed.

(** X5.  Round trip on the textual exchange: if the JSON-message writer
    accepts the text of a payload and the reader then delivers a message
    whose [Msg] is that text, [SendMessage] followed by [ReceiveMessage]
    returns the payload that was sent, byte for byte, and no error. *)
Theorem textual_send_receive_round_trip :
  forall (env : Collaborators) (jm : jsonMessager) (kind : MessageType)
         (p : list byte) (w w1 w2 : World),
    SendJSONMessage kind (string_of_bytes p) (jm_conn jm) w = (Ok None, w1) ->
    ReceiveJSONMessage (jm_conn jm) kind w1 =
      (Ok (Some {| Msg := string_of_bytes p |}, None), w2) ->
    bind (SendMessage (jsonMessager_Messager jm) kind p)
         (fun _ => ReceiveMessage (jsonMessager_Messager jm) kind) w =
    (Ok (Some p, None), w2).
Proof.
  intros env jm kind p w w1 w2 Hwrite Hread.
  simpl. unfold bind, jsonMessager_SendMessage, jsonMessager_ReceiveMessage.
  rewrite Hwrite. unfold bind. rewrite Hread.
  unfold ret, bytes, string_of_bytes. cbn [Msg].
  rewrite list_byte_of_string_of_list_byte. reflexivity.
Qed.

(** ** More on the walk *)

Section WalkLaws.
Context {env : Collaborators}.

Lemma andThen_cong (c c' k k' : M (option error)) (w : World) :
  c w = c' w -> (forall w', k w' = k' w') -> andThen c k w = andThen c' k' w.
Proof.
  intros Hc Hk. unfold andThen, bind. rewrite Hc.
  destruct (c' w) as [[[e |] |] w']; auto.
Qed.

Lemma SendMetrics_addr_chain (n : nat) (metrics : Value) (m : Messager)
  (prefix : string) (w : World) :
  SendMetrics (addr_chain n metrics) m prefix w = SendMetrics metrics m prefix w.
Proof.
  induction n as [| n IH]; [reflexivity | exact IH].
Qed.

(** The walk of a record, cut at one of its fields. *)
Lemma SendMetrics_at_field (m : Messager) (prefix : string)
  (stringer : option string) (pre post : list (reflect.StructField * Value))
  (f : reflect.StructField) (fv : Value) (w : World) :
  SendMetrics (VStruct stringer (pre ++ (f, fv) :: post)) m prefix w =
  andThen (SendMetrics (VStruct stringer pre) m prefix)
    (andThen
       (perform m
          (fieldPlan prefix f fv (plan (prefix ^^ reflect.Name f ^^ ".") fv)))
       (SendMetrics (VStruct stringer post) m prefix)) w.
Proof.
  rewrite (SendMetrics_perform (VStruct stringer (pre ++ (f, fv) :: post))).
  rewrite plan_app, plan_cons, perform_app.
  apply andThen_cong.
  - symmetry. apply SendMetrics_perform.
  - intros w'. rewrite perform_app. apply andThen_cong; [reflexivity |].
    intros w''. symmetry. apply SendMetrics_perform.
Qed.

Lemma perform_ext (m m' : Messager) (acts : list Action) :
  (forall b w, SendMessage m TestMsg b w = SendMessage m' TestMsg b w) ->
  forall w, perform m acts w = perform m' acts w.
Proof.
  intros Hsend.
  induction acts as [| [line | line |] acts IH]; intros w; simpl.
  - reflexivity.
  - unfold bind. rewrite Hsend.
    destruct (SendMessage m' TestMsg (bytes line) w) as [[[e |] |] w'];
      auto.
  - unfold bind, Println. apply IH.
  - reflexivity.
Qed.

Lemma Sprintf_metric_prefix (p q name rendered : string) :
  Sprintf_metric (p ^^ q) name rendered = p ^^ Sprintf_metric q name rendered.
Proof. unfold Sprintf_metric. apply append_assoc. Qed.

Lemma fieldPlan_prefixed (p q : string) (f : reflect.StructField) (fv : Value)
  (nested : list Action) :
  fieldPlan (p ^^ q) f fv (map (prefixed p) nested) =
  map (prefixed p) (fieldPlan q f fv nested).
Proof.
  unfold fieldPlan.
  destruct (Kind_of fv); destruct (reflect.IsExported f);
    try destruct (Stringer_String fv);
    cbn [map prefixed]; rewrite ?Sprintf_metric_prefix; reflexivity.
Qed.

Lemma plan_prefixed (metrics : Value) :
  forall p q, plan (p ^^ q) metrics = map (prefixed p) (plan q metrics).
Proof.
  induction metrics as [k n fmt | s | stringer fields IH | | elem IH | k]
    using Value_nested_ind; intros p q; try reflexivity.
  - induction IH as [| [f fv] rest Hfv _ IHrest].
    + reflexivity.
    + simpl in Hfv.
      rewrite !plan_cons, map_app, <- IHrest, <- fieldPlan_prefixed.
      rewrite <- Hfv, append_assoc. reflexivity.
  - apply IH.
Qed.

Lemma sends_prefixed (p : string) (acts : list Action) :
  sends (map (prefixed p) acts) = map (String.append p) (sends acts).
Proof.
  induction acts as [| [line | line |] acts IH]; simpl; rewrite ?IH;
    reflexivity.
Qed.

End WalkLaws.

(** X6.  An exported integer field whose type has no formatting method,
    anywhere in a record: when its kind is one of int, int8, int16, int32,
    int64, uint8, uint16, uint32 and uint64 the walk sends the one line
    made of the prefix, the name, a colon and a blank, the value in decimal
    and a newline, between the walks of the fields before and after it;
    when its kind is uint or uintptr the walk sends nothing for it and logs
    the kind. *)
Theorem integer_field_by_kind :
  forall (env : Collaborators) (m : Messager) (prefix name : string)
         (stringer : option string)
         (pre post : list (reflect.StructField * Value))
         (k : IntegerKind) (n : Z) (w : World),
    SendMetrics
      (VStruct stringer (pre ++ (exported name, VInteger k n None) :: post))
      m prefix w =
    andThen (SendMetrics (VStruct stringer pre) m prefix)
      (andThen
         match k with
         | KUint | KUintptr =>
             bind (Println (unhandled (IntegerKind_Kind k)))
                  (fun _ => ret None)
         | _ =>
             SendMessage m TestMsg
               (bytes (prefix ^^ name ^^ ": " ^^ strconv_FormatInt n ^^ newline))
         end
         (SendMetrics (VStruct stringer post) m prefix)) w.
Proof.
  intros env m prefix name stringer pre post k n w.
  rewrite SendMetrics_at_field.
  apply andThen_cong; [reflexivity |]. intros w1.
  apply andThen_cong; [| reflexivity].
  destruct k; try reflexivity;
    cbn [fieldPlan Kind_of IntegerKind_Kind reflect.IsExported exported
         reflect.PkgPath reflect.Name fmt_v];
    apply andThen_id.
Qed.

(** X7.  A string field is sent whether it is exported or not: the walk
    sends the one line made of the prefix, the name, a colon and a blank,
    the string itself and a newline, between the walks of the fields before
    and after it. *)
Theorem string_field_sent_verbatim :
  forall (env : Collaborators) (m : Messager) (prefix : string)
         (stringer : option string)
         (pre post : list (reflect.StructField * Value))
         (f : reflect.StructField) (s : string) (w : World),
    SendMetrics (VStruct stringer (pre ++ (f, VString s) :: post)) m prefix w =
    andThen (SendMetrics (VStruct stringer pre) m prefix)
      (andThen
         (SendMessage m TestMsg
            (bytes (prefix ^^ reflect.Name f ^^ ": " ^^ s ^^ newline)))
         (SendMetrics (VStruct stringer post) m prefix)) w.
Proof.
  intros env m prefix stringer pre post f s w.
  rewrite SendMetrics_at_field.
  apply andThen_cong; [reflexivity |]. intros w1.
  apply andThen_cong; [| reflexivity].
  apply andThen_id.
Qed.

(** X8.  The prefix is put in front of every line and changes nothing
    else: the plan under the prefix [p] followed by [q] is the plan under
    [q] with [p] in front of each line sent, with the same diagnostics and
    the same panic.  So the walk under a prefix sends the lines of the walk
    under the empty prefix, each with the prefix in front. *)
Theorem prefix_prepended_to_every_line :
  forall (env : Collaborators) (metrics : Value) (m : Messager)
         (p q : string) (w : World),
    plan (p ^^ q) metrics = map (prefixed p) (plan q metrics)
    /\ sends (plan (p ^^ q) metrics) = map (String.append p) (sends (plan q metrics))
    /\ SendMetrics metrics m (p ^^ q) w =
       perform m (map (prefixed p) (plan q metrics)) w.
Proof.
  intros env metrics m p q w. split; [| split].
  - apply plan_prefixed.
  - rewrite plan_prefixed. apply sends_prefixed.
  - rewrite SendMetrics_perform, plan_prefixed. reflexivity.
Qed.

(** X9.  The walk uses nothing of the exchange but [SendMessage] with the
    type [TestMsg]: two exchanges that agree there give the same walk, in
    effect and result, whatever their other methods do. *)
Theorem walk_uses_only_SendMessage :
  forall (env : Collaborators) (metrics : Value) (m m' : Messager)
         (prefix : string) (w : World),
    (forall b w0, SendMessage m TestMsg b w0 = SendMessage m' TestMsg b w0) ->
    SendMetrics metrics m prefix w = SendMetrics metrics m' prefix w.
Proof.
  intros env metrics m m' prefix w Hsend.
  rewrite !SendMetrics_perform. apply perform_ext. exact Hsend.
Qed.

(** X10.  An argument that is not a record makes the walk panic before
    anything is sent or logged: a nil pointer, or a value that is neither a
    struct nor a pointer, passed directly or behind any chain of
    pointers. *)
Theorem walk_panics_without_a_record :
  forall (env : Collaborators) (n : nat) (v : Value) (m : Messager)
         (prefix : string) (w : World),
    v = VPtr None
    \/ (Kind_of v <> reflect.Struct /\ Kind_of v <> reflect.Ptr) ->
    SendMetrics (addr_chain n v) m prefix w = (Panic, w).
Proof.
  intros env n v m prefix w Hv.
  rewrite SendMetrics_addr_chain.
  destruct Hv as [-> | [Hstruct Hptr]]; [reflexivity |].
  destruct v; try reflexivity.
  - now elim Hstruct.
  - now elim Hptr.
Qed.

(** X11.  A field that is not exported and whose kind is one of the listed
    integer kinds or struct makes the walk panic when it is reached: the
    fields before it are walked, and unless one of their sends returned an
    error the walk panics there, with nothing sent for the field or for the
    fields after it. *)
Theorem unexported_field_panics :
  forall (env : Collaborators) (m : Messager) (prefix : string)
         (stringer : option string)
         (pre post : list (reflect.StructField * Value))
         (f : reflect.StructField) (fv : Value) (w : World),
    reflect.IsExported f = false ->
    recognized (Kind_of fv) = true ->
    Kind_of fv <> reflect.String ->
    SendMetrics (VStruct stringer (pre ++ (f, fv) :: post)) m prefix w =
    andThen (SendMetrics (VStruct stringer pre) m prefix) panic w.
Proof.
  intros env m prefix stringer pre post f fv w Hf Hk Hs.
  rewrite SendMetrics_at_field.
  apply andThen_cong; [reflexivity |]. intros w1.
  unfold fieldPlan. rewrite Hf.
  destruct (Kind_of fv); try discriminate Hk; try reflexivity.
  now elim Hs.
Qed.

(** X14.  A record all of whose fields have kinds without a case in the
    switch, the empty record included, never reaches the exchange: the
    walk returns nil, and its only effect is one logged diagnostic per
    field, in declared order. *)
Theorem record_of_other_kinds_returns_nil :
  forall (env : Collaborators) (m : Messager) (prefix : string)
         (stringer : option string)
         (fields : list (reflect.StructField * Value)) (w : World),
    Forall (fun x => recognized (Kind_of (snd x)) = false) fields ->
    SendMetrics (VStruct stringer fields) m prefix w =
    (Ok None,
     fold_left (fun w0 x => log_Println (unhandled (Kind_of (snd x))) w0)
       fields w).
Proof.
  intros env m prefix stringer fields w Hall. revert w.
  induction Hall as [| [f fv] rest Hk _ IH]; intros w.
  - reflexivity.
  - simpl in Hk.
    change ((f, fv) :: rest) with ([] ++ (f, fv) :: rest).
    rewrite (SendMetrics_at_field m prefix stringer [] rest f fv w).
    rewrite (fieldPlan_unrecognized _ _ _ _ Hk).
    unfold andThen, bind. simpl. unfold bind, Println, ret.
    apply IH.
Qed.

(** ** What reaches the recording transport *)

Lemma perform_transcript (m : @Messager MockTransport.mock)
  (sent : string -> MockTransport.Call) :
  (forall b w,
      @SendMessage MockTransport.mock m 5%nat b w =
      MockTransport.write (sent (string_of_bytes b)) w) ->
  forall (acts : list Action) (w : MockTransport.world),
    (exists n,
        MockTransport.calls (snd (@perform MockTransport.mock m acts w)) =
        MockTransport.calls w ++ firstn n (transcript sent acts))
    /\ (fst (@perform MockTransport.mock m acts w) = Ok None ->
        MockTransport.calls (snd (@perform MockTransport.mock m acts w)) =
        MockTransport.calls w ++ transcript sent acts).
Proof.
  intros Hsend.
  induction acts as [| [line | line |] acts IH]; intros w.
  - split; [exists 0%nat |]; simpl; now rewrite app_nil_r.
  - cbn [perform transcript]. unfold bind.
    change (@TestMsg MockTransport.mock) with 5%nat.
    rewrite Hsend. unfold string_of_bytes, bytes.
    rewrite string_of_list_byte_of_string.
    unfold MockTransport.write. cbn [MockTransport.record MockTransport.writes_ok].
    destruct (MockTransport.writes_ok w) as [[| k] |].
    + split; [exists 1%nat; reflexivity | discriminate].
    + match goal with
      | |- context [perform m acts ?w1] =>
          destruct (IH w1) as [[n Hn] Hfull]
      end.
      split.
      * exists (S n). rewrite Hn. simpl. now rewrite <- app_assoc.
      * intros Hok. rewrite (Hfull Hok). simpl. now rewrite <- app_assoc.
    + match goal with
      | |- context [perform m acts ?w1] =>
          destruct (IH w1) as [[n Hn] Hfull]
      end.
      split.
      * exists (S n). rewrite Hn. simpl. now rewrite <- app_assoc.
      * intros Hok. rewrite (Hfull Hok). simpl. now rewrite <- app_assoc.
  - cbn [perform transcript]. unfold bind, Println.
    match goal with
    | |- context [perform m acts ?w1] =>
        destruct (IH w1) as [[n Hn] Hfull]
    end.
    split.
    + exists (S n). rewrite Hn. simpl. now rewrite <- app_assoc.
    + intros Hok. rewrite (Hfull Hok). simpl. now rewrite <- app_assoc.
  - split; [exists 0%nat |]; simpl; [now rewrite app_nil_r | discriminate].
Qed.

Lemma In_firstn {A : Type} (n : nat) (l : list A) (x : A) :
  In x (firstn n l) -> In x l.
Proof.
  intros Hin. rewrite <- (firstn_skipn n l). apply in_or_app. now left.
Qed.

Lemma In_transcript (sent : string -> MockTransport.Call)
  (acts : list Action) (c : MockTransport.Call) :
  In c (transcript sent acts) ->
  (exists line, c = sent line /\ In line (sends acts))
  \/ (exists text, c = MockTransport.CallPrintln text).
Proof.
  induction acts as [| [line | line |] acts IH]; simpl; intros Hin.
  - contradiction.
  - destruct Hin as [<- | Hin].
    + left. exists line. split; [reflexivity | now left].
    + destruct (IH Hin) as [[l [Hc Hl]] | Hlog]; [left | now right].
      exists l. split; [exact Hc | now right].
  - destruct Hin as [<- | Hin].
    + right. now exists line.
    + exact (IH Hin).
  - contradiction.
Qed.

Lemma metric_line_nested (prefix name line : string) :
  metric_line (prefix ^^ name ^^ ".") line -> metric_line prefix line.
Proof.
  intros [path [rendered ->]].
  exists (name ^^ "." ^^ path), rendered.
  now rewrite !append_assoc.
Qed.

Lemma plan_lines (metrics : Value) :
  forall prefix, Forall (metric_line prefix) (sends (plan prefix metrics)).
Proof.
  induction metrics as [k n fmt | s | stringer fields IH | | elem IH | k]
    using Value_nested_ind; intros prefix; try (constructor; fail).
  - induction IH as [| [f fv] rest Hfv _ IHrest].
    + constructor.
    + simpl in Hfv. rewrite plan_cons, sends_app.
      apply Forall_app. split; [| exact IHrest].
      unfold fieldPlan.
      destruct (Kind_of fv); destruct (reflect.IsExported f);
        try destruct (Stringer_String fv);
        try (constructor; fail);
        try (constructor; [| constructor];
             unfold Sprintf_metric;
             eexists; eexists; reflexivity).
      all: eapply Forall_impl; [| apply Hfv];
        intros line; apply metric_line_nested.
  - apply IH.
Qed.

(** X12.  On the recording transport, whatever writes fail: what a walk
    adds to the record is an initial part of the transcript of its plan,
    one call of the exchange's writer per line of type [TestMsg] and one
    logged diagnostic per skipped field, in the order of the plan; and when
    the walk returns nil it is the whole transcript.  This holds for the
    binary exchange and for the textual one. *)
Theorem transport_record_is_initial_part_of_plan :
  forall (metrics : Value) (prefix : string) (conn : nat)
         (w : MockTransport.world),
    ((exists n,
         MockTransport.calls
           (snd (SendMetrics metrics (MockTransport.binary conn) prefix w)) =
         MockTransport.calls w
         ++ firstn n (transcript (MockTransport.CallWriteTLVMessage conn 5)
                        (plan prefix metrics)))
     /\ (fst (SendMetrics metrics (MockTransport.binary conn) prefix w) = Ok None ->
         MockTransport.calls
           (snd (SendMetrics metrics (MockTransport.binary conn) prefix w)) =
         MockTransport.calls w
         ++ transcript (MockTransport.CallWriteTLVMessage conn 5)
              (plan prefix metrics)))
    /\ ((exists n,
            MockTransport.calls
              (snd (SendMetrics metrics (MockTransport.textual conn) prefix w)) =
            MockTransport.calls w
            ++ firstn n
                 (transcript (fun line => MockTransport.CallSendJSONMessage 5 line conn)
                    (plan prefix metrics)))
        /\ (fst (SendMetrics metrics (MockTransport.textual conn) prefix w) = Ok None ->
            MockTransport.calls
              (snd (SendMetrics metrics (MockTransport.textual conn) prefix w)) =
            MockTransport.calls w
            ++ transcript (fun line => MockTransport.CallSendJSONMessage 5 line conn)
                 (plan prefix metrics))).
Proof.
  intros metrics prefix conn w.
  rewrite !(@SendMetrics_perform MockTransport.mock).
  split; apply perform_transcript; intros b w0; reflexivity.
Qed.

(** X13.  The completion record determines its three numbers: on the
    recording transport two calls of [SendS2CResults] from the same state
    that have the same result and leave the same record were given the same
    throughput, unsent and total numbers, on the textual exchange and on
    the binary one. *)
Theorem s2c_payload_determines_numbers :
  forall (conn : nat) (t u s t' u' s' : Z) (w : MockTransport.world),
    (SendS2CResults (MockTransport.textual conn) t u s w =
     SendS2CResults (MockTransport.textual conn) t' u' s' w ->
     t = t' /\ u = u' /\ s = s')
    /\ (SendS2CResults (MockTransport.binary conn) t u s w =
        SendS2CResults (MockTransport.binary conn) t' u' s' w ->
        t = t' /\ u = u' /\ s = s').
Proof.
  intros conn t u s t' u' s' w.
  assert (Hcalls : forall c c',
             MockTransport.write c w = MockTransport.write c' w -> c = c').
  { intros c c'. unfold MockTransport.write.
    cbn [MockTransport.record MockTransport.writes_ok MockTransport.calls].
    destruct (MockTransport.writes_ok w) as [[| k] |]; intros Heq;
      injection Heq as Heq; apply app_inv_head in Heq;
      now injection Heq. }
  pose (text := fun c =>
                  match c with
                  | MockTransport.CallWriteTLVMessage _ _ msg => msg
                  | _ => EmptyString
                  end).
  split; intros Heq.
  - apply json_payload_inj.
    exact (f_equal text
             (Hcalls (MockTransport.CallWriteTLVMessage conn 5 _)
                     (MockTransport.CallWriteTLVMessage conn 5 _) Heq)).
  - apply tlv_payload_inj.
    exact (f_equal text
             (Hcalls (MockTransport.CallWriteTLVMessage conn 5 _)
                     (MockTransport.CallWriteTLVMessage conn 5 _) Heq)).
Qed.

(** X15.  On the recording transport a walk over the binary exchange adds
    to the record nothing but writes of type [TestMsg] on its own
    connection, each carrying a line that starts with the prefix, has a
    colon and a blank after the field path and ends with a newline, and
    logged diagnostics: no read, no write of another type or on another
    connection, no call of the other codec. *)
Theorem walk_adds_only_metric_lines :
  forall (metrics : Value) (prefix : string) (conn : nat)
         (w : MockTransport.world) (c : MockTransport.Call),
    In c (MockTransport.calls
            (snd (SendMetrics metrics (MockTransport.binary conn) prefix w))) ->
    In c (MockTransport.calls w)
    \/ (exists line,
           c = MockTransport.CallWriteTLVMessage conn 5 line
           /\ metric_line prefix line)
    \/ (exists text, c = MockTransport.CallPrintln text).
Proof.
  intros metrics prefix conn w c.
  rewrite (@SendMetrics_perform MockTransport.mock).
  destruct (perform_transcript (MockTransport.binary conn)
              (MockTransport.CallWriteTLVMessage conn 5)
              (fun b w0 => eq_refl) (plan prefix metrics) w) as [[n Hn] _].
  rewrite Hn. intros Hin.
  apply in_app_or in Hin as [Hin | Hin]; [now left | right].
  apply In_firstn, In_transcript in Hin as [[line [Hc Hline]] | Hlog];
    [left | now right].
  exists line. split; [exact Hc |].
  exact (proj1 (Forall_forall _ _) (plan_lines metrics prefix) line Hline).
Qed.

(** ** The further properties at concrete inputs *)

(** X1 at the value 7, outside the enumeration. *)
Lemma Messager_nil_for_seven :
  @Encoding_Messager MockTransport.mock 7 3%nat (MockTransport.fresh None) =
  (Ok None,
   {| MockTransport.calls :=
        [MockTransport.CallPrintf ("Bad Encoding value: 7" ^^ newline)];
      MockTransport.writes_ok := None;
      MockTransport.json_inbox := [];
      MockTransport.tlv_inbox := [] |}).
Proof.
  apply (Messager_nil_for_other_values MockTransport.mock 7 3%nat
           (MockTransport.fresh None)).
  - unfold JSON. lia.
  - unfold TLV. lia.
Defined.

(** X2 at the name "JSON". *)
Lemma Encoding_named_JSON : JSON = 1.
Proof.
  apply (Encoding_String_injective JSON 1). reflexivity.
Defined.

(** X3 at a read that yields a message together with an error. *)
Lemma textual_receive_message_and_error :
  (Some (@bytes "hi") <> None \/ Some "late"%string <> None)
  /\ exists msg rerr,
       MockTransport.read_json (MockTransport.CallReceiveJSONMessage 7 5)
         (MockTransport.awaiting (Some {| Msg := "hi" |}, Some "late"%string)) =
       (Ok (msg, rerr),
        {| MockTransport.calls := [MockTransport.CallReceiveJSONMessage 7 5];
           MockTransport.writes_ok := None;
           MockTransport.json_inbox := [];
           MockTransport.tlv_inbox := [] |})
       /\ Some (@bytes "hi") = option_map (fun x => bytes (Msg x)) msg
       /\ (msg <> None -> Some "late"%string = rerr).
Proof.
  apply (textual_receive_never_both_nil MockTransport.mock
           (@Build_jsonMessager MockTransport.mock 7%nat) 5%nat
           (Some (@bytes "hi")) (Some "late"%string)
           (MockTransport.awaiting (Some {| Msg := "hi" |}, Some "late"%string))).
  reflexivity.
Defined.

(** X4 at the payload "hi", the reader delivering what was written. *)
Lemma binary_round_trip_hi :
  bind (SendMessage (MockTransport.binary 7) 5%nat (bytes "hi"))
       (fun _ => ReceiveMessage (MockTransport.binary 7) 5%nat)
       {| MockTransport.calls := [];
          MockTransport.writes_ok := None;
          MockTransport.json_inbox := [];
          MockTransport.tlv_inbox := [(Some (bytes "hi"), 2, None)] |} =
  (Ok (Some (bytes "hi"), None),
   {| MockTransport.calls :=
        [MockTransport.CallWriteTLVMessage 7 5 "hi";
         MockTransport.CallReadTLVMessage 7 5];
      MockTransport.writes_ok := None;
      MockTransport.json_inbox := [];
      MockTransport.tlv_inbox := [] |}).
Proof.
  apply (binary_send_receive_round_trip MockTransport.mock
           (@Build_tlvMessager MockTransport.mock 7%nat) 5%nat (bytes "hi") 2
           {| MockTransport.calls := [];
              MockTransport.writes_ok := None;
              MockTransport.json_inbox := [];
              MockTransport.tlv_inbox := [(Some (bytes "hi"), 2, None)] |}
           {| MockTransport.calls := [MockTransport.CallWriteTLVMessage 7 5 "hi"];
              MockTransport.writes_ok := None;
              MockTransport.json_inbox := [];
              MockTransport.tlv_inbox := [(Some (bytes "hi"), 2, None)] |}).
  - reflexivity.
  - reflexivity.
Defined.

(** X5 at the payload "hi", the reader delivering what was written. *)
Lemma textual_round_trip_hi :
  bind (SendMessage (MockTransport.textual 7) 5%nat (bytes "hi"))
       (fun _ => ReceiveMessage (MockTransport.textual 7) 5%nat)
       {| MockTransport.calls := [];
          MockTransport.writes_ok := None;
          MockTransport.json_inbox := [(Some {| Msg := "hi" |}, None)];
          MockTransport.tlv_inbox := [] |} =
  (Ok (Some (bytes "hi"), None),
   {| MockTransport.calls :=
        [MockTransport.CallSendJSONMessage 5 "hi" 7;
         MockTransport.CallReceiveJSONMessage 7 5];
      MockTransport.writes_ok := None;
      MockTransport.json_inbox := [];
      MockTransport.tlv_inbox := [] |}).
Proof.
  apply (textual_send_receive_round_trip MockTransport.mock
           (@Build_jsonMessager MockTransport.mock 7%nat) 5%nat (bytes "hi")
           {| MockTransport.calls := [];
              MockTransport.writes_ok := None;
              MockTransport.json_inbox := [(Some {| Msg := "hi" |}, None)];
              MockTransport.tlv_inbox := [] |}
           {| MockTransport.calls := [MockTransport.CallSendJSONMessage 5 "hi" 7];
              MockTransport.writes_ok := None;
              MockTransport.json_inbox := [(Some {| Msg := "hi" |}, None)];
              MockTransport.tlv_inbox := [] |}).
  - reflexivity.
  - reflexivity.
Defined.

(** X9 at the binary exchange and an exchange that only knows how to
    send. *)
Lemma walk_same_on_sendOnly :
  SendMetrics recordAB (MockTransport.binary 7) "" (MockTransport.fresh None) =
  SendMetrics recordAB (sendOnly 7) "" (MockTransport.fresh None).
Proof.
  apply (walk_uses_only_SendMessage MockTransport.mock recordAB
           (MockTransport.binary 7) (sendOnly 7) "" (MockTransport.fresh None)).
  intros b w0. reflexivity.
Defined.

(** X10 at a pointer to a pointer to a nil pointer. *)
Lemma walk_panics_on_nil :
  SendMetrics (addr_chain 2 (VPtr None)) (MockTransport.binary 7) ""
    (MockTransport.fresh None) = (Panic, MockTransport.fresh None).
Proof.
  apply (walk_panics_without_a_record MockTransport.mock 2 (VPtr None)
           (MockTransport.binary 7) "" (MockTransport.fresh None)).
  left. reflexivity.
Defined.

(** X11 at [{A: 1, b: 2, C: 3}]: "A: 1" is sent, then the walk panics. *)
Lemma walk_panics_at_hidden_field :
  SendMetrics recordHidden (MockTransport.binary 7) ""
    (MockTransport.fresh None) =
  (Panic,
   {| MockTransport.calls :=
        [MockTransport.CallWriteTLVMessage 7 5 ("A: 1" ^^ newline)];
      MockTransport.writes_ok := None;
      MockTransport.json_inbox := [];
      MockTransport.tlv_inbox := [] |}).
Proof.
  apply (unexported_field_panics MockTransport.mock (MockTransport.binary 7)
           "" None [(exported "A", int 1)] [(exported "C", int 3)]
           {| reflect.Name := "b"; reflect.PkgPath := "main" |} (int 2)
           (MockTransport.fresh None)).
  - reflexivity.
  - reflexivity.
  - simpl. discriminate.
Defined.

(** X13 at the numbers of the specification's example. *)
Lemma s2c_numbers_read_back :
  1000 = 1000 /\ 0 = 0 /\ 125000 = 125000.
Proof.
  apply (proj2 (s2c_payload_determines_numbers 7 1000 0 125000 1000 0 125000
                  (MockTransport.fresh None))).
  reflexivity.
Defined.

(** X14 at [{Flag: true, Ratio: 0.5, Next: nil}]. *)
Lemma walk_of_opaque_record :
  SendMetrics (VStruct None recordOpaque) (MockTransport.binary 7) ""
    (MockTransport.fresh None) =
  (Ok None,
   {| MockTransport.calls :=
        [MockTransport.CallPrintln "Unhandled case in SendMetrics: bool";
         MockTransport.CallPrintln "Unhandled case in SendMetrics: float64";
         MockTransport.CallPrintln "Unhandled case in SendMetrics: ptr"];
      MockTransport.writes_ok := None;
      MockTransport.json_inbox := [];
      MockTransport.tlv_inbox := [] |}).
Proof.
  apply (record_of_other_kinds_returns_nil MockTransport.mock
           (MockTransport.binary 7) "" None recordOpaque
           (MockTransport.fresh None)).
  repeat constructor.
Defined.

(** X15 at the first call of the walk of [{A: 5, B: "x"}]. *)
Lemma first_call_is_metric_line :
  In (MockTransport.CallWriteTLVMessage 7 5 ("A: 5" ^^ newline))
     (MockTransport.calls (MockTransport.fresh None))
  \/ (exists line,
         MockTransport.CallWriteTLVMessage 7 5 ("A: 5" ^^ newline) =
         MockTransport.CallWriteTLVMessage 7 5 line
         /\ metric_line "" line)
  \/ (exists text,
         MockTransport.CallWriteTLVMessage 7 5 ("A: 5" ^^ newline) =
         MockTransport.CallPrintln text).
Proof.
  apply (walk_adds_only_metric_lines recordAB "" 7 (MockTransport.fresh None)
           (MockTransport.CallWriteTLVMessage 7 5 ("A: 5" ^^ newline))).
  simpl. left. reflexivity.
Defined.
